(** * AlterLab Python SDK: the request lifecycle controller

    A shallow embedding of [src/alterlab/client.py]: the request builder
    ([_build_scrape_payload], [AdvancedOptions.to_dict],
    [CostControls.to_dict]), the transport with retry
    ([_request_with_retry], [_async_request_with_retry],
    [_handle_error_response]), the response parser
    ([_parse_scrape_response]), the job poller ([get_job_status],
    [wait_for_job] and their [_async] twins) and the facade ([scrape],
    [scrape_async]).

    Conventions of the embedding.
    - A loosely typed Python value (what [response.json()] yields, what a
      request body holds) is a [pyval]; Python's [None] is JSON's null.
    - A Python [dict] is an association list in insertion order, with
      unique keys; lookup takes the first binding of a key.
    - Seconds ([float] in the source) are rationals; the products
      [retry_delay * (2**attempt)] are kept as written, and raise
      [OverflowError] where Python cannot turn [2**attempt] into a float.
    - The outside world is scripted, as under a mocked HTTP client, a
      mocked [sleep] and a mocked [time.time]: the outcomes of the
      successive [client.request] calls and the readings of the clock are
      inputs, and every request and every sleep is appended to a trace. *)

From Stdlib Require Import ZArith QArith List String Ascii Bool Lia.
Import ListNotations.

Set Warnings "-register-all".

Local Open Scope string_scope.
Local Open Scope list_scope.
Local Open Scope Z_scope.

(* ===================================================================== *)
(** * Python values                                                        *)
(* ===================================================================== *)

Inductive pyval : Type :=
| PNone
| PBool (b : bool)
| PInt (z : Z)
| PFloat (q : Q)
| PStr (s : string)
| PList (l : list pyval)
| PDict (d : list (string * pyval)).

Definition pydict : Type := list (string * pyval).

(** [bool(v)]: the truth value Python gives to [v] in [if v:] and [v or w]. *)
Definition truthy (v : pyval) : bool :=
  match v with
  | PNone => false
  | PBool b => b
  | PInt z => negb (z =? 0)
  | PFloat q => negb (Qeq_bool q 0)
  | PStr s => negb (s =? "")%string
  | PList l => match l with [] => false | _ => true end
  | PDict d => match d with [] => false | _ => true end
  end.

(** [v == s] for a string literal [s]. *)
Definition py_eq_str (v : pyval) (s : string) : bool :=
  match v with
  | PStr t => (t =? s)%string
  | _ => false
  end.

(** [a or b] *)
Definition py_or (a b : pyval) : pyval := if truthy a then a else b.

Fixpoint dict_get (d : pydict) (k : string) : option pyval :=
  match d with
  | [] => None
  | (k', v) :: d' => if (k' =? k)%string then Some v else dict_get d' k
  end.

(** [d.get(k, dflt)] *)
Definition dict_get_default (d : pydict) (k : string) (dflt : pyval) : pyval :=
  match dict_get d k with
  | Some v => v
  | None => dflt
  end.

(** [d[k] = v]: overwrite in place, or append a new key. *)
Fixpoint dict_set (d : pydict) (k : string) (v : pyval) : pydict :=
  match d with
  | [] => [(k, v)]
  | (k', v') :: d' =>
      if (k' =? k)%string then (k', v) :: d' else (k', v') :: dict_set d' k v
  end.

(** [if cond: d[k] = v] *)
Definition set_if (cond : bool) (k : string) (v : pyval) (d : pydict) : pydict :=
  if cond then dict_set d k v else d.

(** [if <o is there>: d[k] = <its value>], for a guard that is true exactly
    when the value [o] to store exists. *)
Definition set_opt (k : string) (o : option pyval) (d : pydict) : pydict :=
  match o with
  | Some v => dict_set d k v
  | None => d
  end.

Definition opt_str (o : option string) : pyval :=
  match o with
  | Some s => PStr s
  | None => PNone
  end.

(** [bool(s)] for an [Optional[str]] *)
Definition opt_str_truthy (o : option string) : bool :=
  match o with
  | Some s => negb (s =? "")%string
  | None => false
  end.

(** [bool(x)] for an [Optional[...]] dataclass instance: an instance is
    always true, [None] is false. *)
Definition is_some {A : Type} (o : option A) : bool :=
  match o with
  | Some _ => true
  | None => false
  end.

(* ===================================================================== *)
(** * HTTP responses and exceptions                                        *)
(* ===================================================================== *)

(** What the client reads of an [httpx.Response]. *)
Record response : Type := mkResponse {
  resp_status_code : Z;
  resp_text : string;
  (** [response.json()]; [None] when the body is not JSON (the call raises) *)
  resp_json : option pyval;
  (** [response.headers.get("Retry-After")] *)
  resp_retry_after : option string
}.

Inductive exn : Type :=
(** [AlterLabError(msg)] *)
| AlterLabError (msg : string)
(** [AlterLabAPIError(status_code, message, response)] *)
| AlterLabAPIError (status_code : Z) (message : pyval) (r : option response)
| AuthenticationError (status_code : Z) (message : pyval) (r : option response)
| InsufficientCreditsError (status_code : Z) (message : pyval) (r : option response)
(** [RateLimitError(message, retry_after, response)]; its status is 429 *)
| RateLimitError (message : pyval) (retry_after : option Z) (r : option response)
| ValidationError (status_code : Z) (message : pyval) (r : option response)
(** [ScrapeError(status_code, message, code)] *)
| ScrapeError (status_code : Z) (message : pyval) (code : option string)
(** [TimeoutError(f"Job {job_id} did not complete within {poll_timeout} seconds")] *)
| TimeoutError (job_id : pyval) (poll_timeout : Q)
(** [httpx.TimeoutException] or [httpx.NetworkError], with its [str(e)] *)
| HttpxTransportError (e : string)
(** exceptions of the Python runtime *)
| PyValueError
| PyOverflowError
| PyTypeError
| PyAttributeError
| PyKeyError
| JSONDecodeError
(** the scripted world has nothing left to answer with *)
| MockExhausted.

Inductive result (A : Type) : Type :=
| Ok (a : A)
| Raise (e : exn).
Arguments Ok {A} a.
Arguments Raise {A} e.

Definition rbind {A B : Type} (r : result A) (f : A -> result B) : result B :=
  match r with
  | Ok a => f a
  | Raise e => Raise e
  end.

(** [v.get(k, dflt)]: only a dict has [.get]. *)
Definition py_get (v : pyval) (k : string) (dflt : pyval) : result pyval :=
  match v with
  | PDict d => Ok (dict_get_default d k dflt)
  | _ => Raise PyAttributeError
  end.

(** [v[k]] for a string key. *)
Definition py_getitem (v : pyval) (k : string) : result pyval :=
  match v with
  | PDict d =>
      match dict_get d k with
      | Some x => Ok x
      | None => Raise PyKeyError
      end
  | _ => Raise PyTypeError
  end.

Definition is_substring (k s : string) : bool :=
  match String.index 0 k s with
  | Some _ => true
  | None => false
  end.

(** [k in v] for a string literal [k]: key membership in a dict, element
    membership in a list, substring test in a string. *)
Definition py_contains (k : string) (v : pyval) : result bool :=
  match v with
  | PDict d => Ok (is_some (dict_get d k))
  | PList l => Ok (existsb (fun x => py_eq_str x k) l)
  | PStr s => Ok (is_substring k s)
  | _ => Raise PyTypeError
  end.

Fixpoint chars (s : string) : list pyval :=
  match s with
  | EmptyString => []
  | String a s' => PStr (String a EmptyString) :: chars s'
  end.

(** [for e in v]: the items Python iterates over. *)
Definition py_iter (v : pyval) : result (list pyval) :=
  match v with
  | PList l => Ok l
  | PDict d => Ok (map (fun kv => PStr (fst kv)) d)
  | PStr s => Ok (chars s)
  | _ => Raise PyTypeError
  end.

(* ===================================================================== *)
(** * Data classes                                                         *)
(* ===================================================================== *)

Record AdvancedOptions : Type := mkAdvancedOptions {
  render_js : bool;
  ao_screenshot : bool;
  markdown : bool;
  generate_pdf : bool;
  ocr : bool;
  use_proxy : bool;
  use_own_proxy : bool;
  use_system_proxy : bool;
  proxy_integration_id : option string;
  proxy_country : option string;
  wait_condition : string;
  remove_cookie_banners : bool
}.

(** [AdvancedOptions()] with every field at its declared default. *)
Definition AdvancedOptions_default : AdvancedOptions :=
  mkAdvancedOptions false false false false false false false false
                    None None "networkidle" true.

(** [AdvancedOptions.__post_init__]: [None] when the checks pass, else the
    message of the [ValueError]. *)
Definition AdvancedOptions_post_init (a : AdvancedOptions) : option string :=
  if ao_screenshot a && negb (render_js a) then
    Some "screenshot requires render_js=True"
  else if generate_pdf a && negb (render_js a) then
    Some "generate_pdf requires render_js=True"
  else if negb ((wait_condition a =? "domcontentloaded")%string
                || (wait_condition a =? "networkidle")%string
                || (wait_condition a =? "load")%string) then
    Some "wait_condition must be 'domcontentloaded', 'networkidle', or 'load'"
  else None.

(** [AdvancedOptions.to_dict] *)
Definition AdvancedOptions_to_dict (a : AdvancedOptions) : pydict :=
  [ ("render_js", PBool (render_js a));
    ("screenshot", PBool (ao_screenshot a));
    ("markdown", PBool (markdown a));
    ("generate_pdf", PBool (generate_pdf a));
    ("ocr", PBool (ocr a));
    ("use_proxy", PBool (use_proxy a));
    ("use_own_proxy", PBool (use_own_proxy a));
    ("use_system_proxy", PBool (use_system_proxy a));
    ("proxy_integration_id", opt_str (proxy_integration_id a));
    ("proxy_country", opt_str (proxy_country a));
    ("wait_condition", PStr (wait_condition a));
    ("remove_cookie_banners", PBool (remove_cookie_banners a)) ].

Record CostControls : Type := mkCostControls {
  max_tier : option string;
  prefer_cost : bool;
  prefer_speed : bool;
  fail_fast : bool
}.

(** [CostControls.to_dict] *)
Definition CostControls_to_dict (cc : CostControls) : pydict :=
  let result :=
    [ ("prefer_cost", PBool (prefer_cost cc));
      ("prefer_speed", PBool (prefer_speed cc));
      ("fail_fast", PBool (fail_fast cc)) ] in
  set_if (opt_str_truthy (max_tier cc)) "max_tier" (opt_str (max_tier cc)) result.

Record TierEscalation : Type := mkTierEscalation {
  te_tier : pyval;
  te_result : pyval;
  te_credits : pyval;
  te_duration_ms : pyval;
  te_error : pyval
}.

Record BillingDetails : Type := mkBillingDetails {
  total_credits : pyval;
  tier_used : pyval;
  escalations : list TierEscalation;
  savings : pyval;
  optimization_suggestion : pyval;
  byop_applied : pyval;
  byop_discount_percent : pyval;
  original_cost_microcents : pyval;
  final_cost_microcents : pyval
}.

(** The fields hold whatever the payload holds: the parser does not check
    their types, so each one is a [pyval] ([PNone] for an absent optional). *)
Record ScrapeResult : Type := mkScrapeResult {
  sr_url : pyval;
  sr_status_code : pyval;
  sr_content : pyval;
  sr_title : pyval;
  sr_author : pyval;
  sr_published_at : pyval;
  sr_metadata : pyval;
  sr_headers : pyval;
  sr_cached : pyval;
  sr_cached_at : pyval;
  sr_expires_at : pyval;
  sr_response_time_ms : pyval;
  sr_size_bytes : pyval;
  sr_raw_html : pyval;
  sr_screenshot_url : pyval;
  sr_pdf_url : pyval;
  sr_ocr_results : pyval;
  sr_proxy_used : pyval;
  sr_filtered_content : pyval;
  sr_billing : option BillingDetails;
  sr_extraction_method : pyval;
  sr_method_details : pyval
}.

(** [ScrapeResult(url=, status_code=, content=, metadata=)]: the four
    arguments the facade passes, every other field at its dataclass
    default. *)
Definition ScrapeResult_init (url status_code content metadata : pyval)
  : ScrapeResult :=
  {| sr_url := url;
     sr_status_code := status_code;
     sr_content := content;
     sr_title := PNone;
     sr_author := PNone;
     sr_published_at := PNone;
     sr_metadata := metadata;
     sr_headers := PDict [];
     sr_cached := PBool false;
     sr_cached_at := PNone;
     sr_expires_at := PNone;
     sr_response_time_ms := PInt 0;
     sr_size_bytes := PInt 0;
     sr_raw_html := PNone;
     sr_screenshot_url := PNone;
     sr_pdf_url := PNone;
     sr_ocr_results := PNone;
     sr_proxy_used := PNone;
     sr_filtered_content := PNone;
     sr_billing := None;
     sr_extraction_method := PStr "algorithmic";
     sr_method_details := PNone |}.

Record JobStatus : Type := mkJobStatus {
  js_job_id : pyval;
  js_status : pyval;
  js_result : option ScrapeResult;
  js_error : pyval
}.

(** The configuration held by an [AlterLab] instance. *)
Record AlterLab : Type := mkAlterLab {
  timeout : Z;
  max_retries : Z;
  retry_delay : Q
}.

(** The keyword arguments of [scrape] / [_build_scrape_payload]. *)
Record scrape_args : Type := mkScrapeArgs {
  a_url : string;
  a_mode : string;
  a_sync : bool;
  a_advanced : option AdvancedOptions;
  a_cost_controls : option CostControls;
  a_cache : bool;
  a_cache_ttl : option Z;
  a_force_refresh : bool;
  a_include_raw_html : bool;
  a_timeout : option Z;
  a_formats : option (list string);
  a_extraction_schema : option pydict;
  a_extraction_prompt : option string;
  a_extraction_profile : option string;
  a_evidence : bool;
  a_promote_schema_org : bool;
  a_wait_for : option string;
  a_screenshot : bool;
  a_wait_until : string;
  a_enable_scroll : option bool;
  a_pdf_format : string;
  a_ocr_language : string;
  a_poll_interval : Q;
  a_poll_timeout : Q
}.

(** [scrape(url)]: every keyword at its default. *)
Definition scrape_defaults (url : string) : scrape_args :=
  {| a_url := url; a_mode := "auto"; a_sync := true;
     a_advanced := None; a_cost_controls := None;
     a_cache := false; a_cache_ttl := None; a_force_refresh := false;
     a_include_raw_html := false; a_timeout := None; a_formats := None;
     a_extraction_schema := None; a_extraction_prompt := None;
     a_extraction_profile := None; a_evidence := false;
     a_promote_schema_org := true; a_wait_for := None;
     a_screenshot := false; a_wait_until := "networkidle";
     a_enable_scroll := None; a_pdf_format := "markdown";
     a_ocr_language := "eng";
     a_poll_interval := 1 # 2; a_poll_timeout := 300 # 1 |}.

(* ===================================================================== *)
(** * Request builder                                                      *)
(* ===================================================================== *)

(** [timeout or self.timeout] *)
Definition effective_timeout (self : AlterLab) (t : option Z) : Z :=
  match t with
  | Some z => if z =? 0 then timeout self else z
  | None => timeout self
  end.

(** [_build_scrape_payload] *)
Definition _build_scrape_payload (self : AlterLab) (a : scrape_args) : pydict :=
  let payload : pydict :=
    [ ("url", PStr (a_url a));
      ("mode", PStr (a_mode a));
      ("sync", PBool (a_sync a));
      ("cache", PBool (a_cache a));
      ("force_refresh", PBool (a_force_refresh a));
      ("include_raw_html", PBool (a_include_raw_html a));
      ("timeout", PInt (effective_timeout self (a_timeout a)));
      ("evidence", PBool (a_evidence a));
      ("promote_schema_org", PBool (a_promote_schema_org a));
      ("wait_until", PStr (a_wait_until a)) ] in
  (* if cache_ttl is not None: *)
  let payload :=
    set_opt "cache_ttl" (option_map PInt (a_cache_ttl a)) payload in
  (* if advanced: *)
  let payload :=
    set_opt "advanced"
            (option_map (fun adv => PDict (AdvancedOptions_to_dict adv))
                        (a_advanced a)) payload in
  (* if cost_controls: *)
  let payload :=
    set_opt "cost_controls"
            (option_map (fun cc => PDict (CostControls_to_dict cc))
                        (a_cost_controls a)) payload in
  (* if formats: *)
  let payload :=
    set_opt "formats"
            (match a_formats a with
             | Some (f :: fs) => Some (PList (map PStr (f :: fs)))
             | _ => None
             end) payload in
  (* if extraction_schema: *)
  let payload :=
    set_opt "extraction_schema"
            (match a_extraction_schema a with
             | Some (kv :: d) => Some (PDict (kv :: d))
             | _ => None
             end) payload in
  let payload :=
    set_if (opt_str_truthy (a_extraction_prompt a))
           "extraction_prompt" (opt_str (a_extraction_prompt a)) payload in
  let payload :=
    set_if (opt_str_truthy (a_extraction_profile a))
           "extraction_profile" (opt_str (a_extraction_profile a)) payload in
  let payload :=
    set_if (opt_str_truthy (a_wait_for a))
           "wait_for" (opt_str (a_wait_for a)) payload in
  let payload :=
    set_if (a_screenshot a) "screenshot" (PBool (a_screenshot a)) payload in
  (* if enable_scroll is not None: *)
  let payload :=
    set_opt "enable_scroll" (option_map PBool (a_enable_scroll a)) payload in
  let payload :=
    set_if (a_mode a =? "pdf")%string "pdf_format" (PStr (a_pdf_format a)) payload in
  let payload :=
    set_if (a_mode a =? "ocr")%string "ocr_language" (PStr (a_ocr_language a)) payload in
  payload.

(* ===================================================================== *)
(** * Response parser                                                      *)
(* ===================================================================== *)

Declare Scope result_scope.
Delimit Scope result_scope with result.
Notation "'let*' x ':=' c 'in' k" := (rbind c (fun x => k))
  (at level 61, x name, c at next level, right associativity) : result_scope.

Fixpoint rmap {A B : Type} (f : A -> result B) (l : list A) : result (list B) :=
  match l with
  | [] => Ok []
  | x :: l' =>
      (let* y := f x in
       let* ys := rmap f l' in
       Ok (y :: ys))%result
  end.

(** The body of the list comprehension over [escalations]. *)
Definition parse_escalation (e : pyval) : result TierEscalation :=
  (let* tier := py_get e "tier" (PStr "1") in
   let* res := py_get e "result" (PStr "success") in
   let* credits := py_get e "credits" (PInt 0) in
   let* duration_ms := py_get e "duration_ms" PNone in
   let* error := py_get e "error" PNone in
   Ok (mkTierEscalation tier res credits duration_ms error))%result.

(** [_parse_scrape_response] *)
Definition _parse_scrape_response (data : pyval) : result ScrapeResult :=
  (let* billing_data := py_get data "billing" (PDict []) in
   let* b_total_credits := py_get billing_data "total_credits" (PInt 0) in
   let* b_tier_used := py_get billing_data "tier_used" (PStr "1") in
   let* esc_src := py_get billing_data "escalations" (PList []) in
   let* esc_items := py_iter esc_src in
   let* b_escalations := rmap parse_escalation esc_items in
   let* b_savings := py_get billing_data "savings" (PInt 0) in
   let* b_suggestion := py_get billing_data "optimization_suggestion" PNone in
   let* b_byop_applied := py_get billing_data "byop_applied" (PBool false) in
   let* b_byop_discount := py_get billing_data "byop_discount_percent" PNone in
   let* b_original := py_get billing_data "original_cost_microcents" PNone in
   let* b_final := py_get billing_data "final_cost_microcents" PNone in
   let billing :=
     mkBillingDetails b_total_credits b_tier_used b_escalations b_savings
                      b_suggestion b_byop_applied b_byop_discount
                      b_original b_final in
   let* url := py_get data "url" (PStr "") in
   let* status_code := py_get data "status_code" (PInt 200) in
   let* content := py_get data "content" (PStr "") in
   let* title := py_get data "title" PNone in
   let* author := py_get data "author" PNone in
   let* published_at := py_get data "published_at" PNone in
   let* metadata := py_get data "metadata" (PDict []) in
   let* headers := py_get data "headers" (PDict []) in
   let* cached := py_get data "cached" (PBool false) in
   let* cached_at := py_get data "cached_at" PNone in
   let* expires_at := py_get data "expires_at" PNone in
   let* response_time_ms := py_get data "response_time_ms" (PInt 0) in
   let* size_bytes := py_get data "size_bytes" (PInt 0) in
   let* raw_html := py_get data "raw_html" PNone in
   let* screenshot_url := py_get data "screenshot_url" PNone in
   let* pdf_url := py_get data "pdf_url" PNone in
   let* ocr_results := py_get data "ocr_results" PNone in
   let* proxy_used := py_get data "proxy_used" PNone in
   let* filtered_content := py_get data "filtered_content" PNone in
   let* extraction_method := py_get data "extraction_method" (PStr "algorithmic") in
   let* method_details := py_get data "method_details" PNone in
   Ok {| sr_url := url;
         sr_status_code := status_code;
         sr_content := content;
         sr_title := title;
         sr_author := author;
         sr_published_at := published_at;
         sr_metadata := metadata;
         sr_headers := headers;
         sr_cached := cached;
         sr_cached_at := cached_at;
         sr_expires_at := expires_at;
         sr_response_time_ms := response_time_ms;
         sr_size_bytes := size_bytes;
         sr_raw_html := raw_html;
         sr_screenshot_url := screenshot_url;
         sr_pdf_url := pdf_url;
         sr_ocr_results := ocr_results;
         sr_proxy_used := proxy_used;
         sr_filtered_content := filtered_content;
         sr_billing := Some billing;
         sr_extraction_method := extraction_method;
         sr_method_details := method_details |})%result.

(* ===================================================================== *)
(** * The scripted world and the monad of client calls                     *)
(* ===================================================================== *)

(** The two execution styles: the blocking methods ([time.sleep], the
    [httpx.Client]) and the suspending ones ([asyncio.sleep], the
    [httpx.AsyncClient]). *)
Inductive surface : Type := Blocking | Suspending.

Inductive event : Type :=
| EvRequest (s : surface) (method path : string) (body : option pyval)
| EvSleep (s : surface) (secs : Q).

Definition is_sleep (e : event) : bool :=
  match e with
  | EvSleep _ _ => true
  | EvRequest _ _ _ _ => false
  end.

Definition is_request (e : event) : bool := negb (is_sleep e).

Definition count_sleeps (evs : list event) : nat :=
  List.length (filter is_sleep evs).

Definition count_requests (evs : list event) : nat :=
  List.length (filter is_request evs).

(** A status request of the job poller: [GET /api/v1/jobs/...]. *)
Definition is_poll_request (e : event) : bool :=
  match e with
  | EvRequest _ method path _ =>
      (method =? "GET")%string && String.prefix "/api/v1/jobs/" path
  | EvSleep _ _ => false
  end.

(** What one [client.request] call does: answer, or fail at network level
    ([httpx.TimeoutException] / [httpx.NetworkError], with its text). *)
Inductive net_outcome : Type :=
| Resp (r : response)
| NetFail (e : string).

Record world : Type := mkWorld {
  script : list net_outcome;
  trace : list event
}.

Definition M (A : Type) : Type := world -> result A * world.

Definition ret {A : Type} (a : A) : M A := fun w => (Ok a, w).

Definition raise {A : Type} (e : exn) : M A := fun w => (Raise e, w).

Definition bind {A B : Type} (m : M A) (f : A -> M B) : M B :=
  fun w =>
    match m w with
    | (Ok a, w') => f a w'
    | (Raise e, w') => (Raise e, w')
    end.

Definition lift {A : Type} (r : result A) : M A := fun w => (r, w).

Declare Scope client_scope.
Delimit Scope client_scope with client.
Notation "x <- c ;; k" := (bind c (fun x => k))
  (at level 61, c at next level, right associativity) : client_scope.
Notation "c ;;; k" := (bind c (fun _ => k))
  (at level 61, right associativity) : client_scope.

(** [try: body except (httpx.TimeoutException, httpx.NetworkError) as e: handler] *)
Definition try_httpx {A : Type} (body : M A) (handler : string -> M A) : M A :=
  fun w =>
    match body w with
    | (Raise (HttpxTransportError e), w') => handler e w'
    | other => other
    end.

Definition log (e : event) (w : world) : world :=
  {| script := script w; trace := trace w ++ [e] |}.

(** [client.request(method, path, **kwargs)] *)
Definition client_request (s : surface) (method path : string)
           (body : option pyval) : M response :=
  fun w =>
    let w1 := log (EvRequest s method path body) w in
    match script w with
    | [] => (Raise MockExhausted, w1)
    | Resp r :: rest => (Ok r, {| script := rest; trace := trace w1 |})
    | NetFail e :: rest =>
        (Raise (HttpxTransportError e), {| script := rest; trace := trace w1 |})
    end.

(** [time.sleep(secs)] / [await asyncio.sleep(secs)] *)
Definition sleep (s : surface) (secs : Q) : M unit :=
  fun w => (Ok tt, log (EvSleep s secs) w).

(** [response.json()] *)
Definition response_json (r : response) : result pyval :=
  match resp_json r with
  | Some v => Ok v
  | None => Raise JSONDecodeError
  end.

(* ===================================================================== *)
(** * Result accessors, remaining data classes, client construction        *)
(* ===================================================================== *)

(** The derived properties of [ScrapeResult]. *)
Module SR.

(** [isinstance(self.content, dict)] then [.get(key, dflt)], else
    [other]: the shape of the four content views. *)
Definition content_view (r : ScrapeResult) (key : string)
           (dflt other : pyval) : pyval :=
  match sr_content r with
  | PDict d => dict_get_default d key dflt
  | _ => other
  end.

(** [ScrapeResult.text] *)
Definition text (r : ScrapeResult) : pyval :=
  content_view r "text" (PStr "") (sr_content r).

(** [ScrapeResult.html] *)
Definition html (r : ScrapeResult) : pyval :=
  content_view r "html" (PStr "") (sr_content r).

(** [ScrapeResult.json] *)
Definition json (r : ScrapeResult) : pyval :=
  content_view r "json" (PDict []) (PDict []).

(** [ScrapeResult.markdown_content] *)
Definition markdown_content (r : ScrapeResult) : pyval :=
  content_view r "markdown" (PStr "") (PStr "").

(** [ScrapeResult.credits_used]: a [BillingDetails] instance is true. *)
Definition credits_used (r : ScrapeResult) : pyval :=
  match sr_billing r with
  | Some b => total_credits b
  | None => PInt 0
  end.

(** [ScrapeResult.tier_used] *)
Definition tier_used (r : ScrapeResult) : pyval :=
  match sr_billing r with
  | Some b => tier_used b
  | None => PStr "1"
  end.

End SR.

Record CostEstimate : Type := mkCostEstimate {
  ce_url : pyval;
  estimated_tier : pyval;
  estimated_credits : pyval;
  confidence : pyval;
  max_possible_credits : pyval;
  reasoning : pyval
}.

Record UsageStats : Type := mkUsageStats {
  credits_available : pyval;
  credits_used_month : pyval;
  credits_limit : pyval;
  plan : pyval;
  period_start : pyval;
  period_end : pyval
}.

(** The payload built at the top of [estimate_cost]. *)
Definition estimate_payload (url mode : string)
           (advanced : option AdvancedOptions)
           (cost_controls : option CostControls) : pydict :=
  let payload : pydict := [("url", PStr url); ("mode", PStr mode)] in
  (* if advanced: *)
  let payload :=
    set_opt "advanced"
            (option_map (fun adv => PDict (AdvancedOptions_to_dict adv))
                        advanced) payload in
  (* if cost_controls: *)
  let payload :=
    set_opt "cost_controls"
            (option_map (fun cc => PDict (CostControls_to_dict cc))
                        cost_controls) payload in
  payload.

(** [AdvancedOptions(render_js=True)] *)
Definition AdvancedOptions_render_js : AdvancedOptions :=
  mkAdvancedOptions true false false false false false false false
                    None None "networkidle" true.

(** [advanced.render_js = True] *)
Definition set_render_js (a : AdvancedOptions) : AdvancedOptions :=
  mkAdvancedOptions true (ao_screenshot a) (markdown a) (generate_pdf a)
                    (ocr a) (use_proxy a) (use_own_proxy a)
                    (use_system_proxy a) (proxy_integration_id a)
                    (proxy_country a) (wait_condition a)
                    (remove_cookie_banners a).

(** [advanced.screenshot = True] *)
Definition set_screenshot (a : AdvancedOptions) : AdvancedOptions :=
  mkAdvancedOptions (render_js a) true (markdown a) (generate_pdf a)
                    (ocr a) (use_proxy a) (use_own_proxy a)
                    (use_system_proxy a) (proxy_integration_id a)
                    (proxy_country a) (wait_condition a)
                    (remove_cookie_banners a).

(** The first lines of [scrape_js]: the options it passes on.  The
    assignments go to the attributes directly, so [__post_init__] is not
    run again. *)
Definition scrape_js_advanced (screenshot : bool)
           (advanced : option AdvancedOptions) : AdvancedOptions :=
  (* kwargs.pop("advanced", None) or AdvancedOptions(render_js=True) *)
  let advanced :=
    match advanced with
    | Some a => a
    | None => AdvancedOptions_render_js
    end in
  let advanced :=
    if negb (render_js advanced) then set_render_js advanced else advanced in
  let advanced :=
    if screenshot then set_screenshot advanced else advanced in
  advanced.

(** The arguments [scrape_js(url, screenshot, wait_for, **kw)] calls
    [scrape] with.  [kw] holds the remaining keywords, defaults filled in;
    [url], [screenshot], [wait_for] and [advanced] are bound by [scrape_js]
    itself and [mode] is passed explicitly, so [scrape] gets its own default
    for [screenshot] and nothing of [kw] for the other four. *)
Definition scrape_js_args (url : string) (screenshot : bool)
           (wait_for : option string) (kw : scrape_args) : scrape_args :=
  {| a_url := url; a_mode := "js"; a_sync := a_sync kw;
     a_advanced := Some (scrape_js_advanced screenshot (a_advanced kw));
     a_cost_controls := a_cost_controls kw;
     a_cache := a_cache kw; a_cache_ttl := a_cache_ttl kw;
     a_force_refresh := a_force_refresh kw;
     a_include_raw_html := a_include_raw_html kw;
     a_timeout := a_timeout kw; a_formats := a_formats kw;
     a_extraction_schema := a_extraction_schema kw;
     a_extraction_prompt := a_extraction_prompt kw;
     a_extraction_profile := a_extraction_profile kw;
     a_evidence := a_evidence kw;
     a_promote_schema_org := a_promote_schema_org kw;
     a_wait_for := wait_for;
     a_screenshot := false; a_wait_until := a_wait_until kw;
     a_enable_scroll := a_enable_scroll kw;
     a_pdf_format := a_pdf_format kw;
     a_ocr_language := a_ocr_language kw;
     a_poll_interval := a_poll_interval kw;
     a_poll_timeout := a_poll_timeout kw |}.

(** [kw] with [url] and [mode] replaced: what [scrape_html(url, **kw)]
    passes for [mode = "html"]. *)
Definition with_mode (url mode : string) (kw : scrape_args) : scrape_args :=
  {| a_url := url; a_mode := mode; a_sync := a_sync kw;
     a_advanced := a_advanced kw;
     a_cost_controls := a_cost_controls kw;
     a_cache := a_cache kw; a_cache_ttl := a_cache_ttl kw;
     a_force_refresh := a_force_refresh kw;
     a_include_raw_html := a_include_raw_html kw;
     a_timeout := a_timeout kw; a_formats := a_formats kw;
     a_extraction_schema := a_extraction_schema kw;
     a_extraction_prompt := a_extraction_prompt kw;
     a_extraction_profile := a_extraction_profile kw;
     a_evidence := a_evidence kw;
     a_promote_schema_org := a_promote_schema_org kw;
     a_wait_for := a_wait_for kw;
     a_screenshot := a_screenshot kw; a_wait_until := a_wait_until kw;
     a_enable_scroll := a_enable_scroll kw;
     a_pdf_format := a_pdf_format kw;
     a_ocr_language := a_ocr_language kw;
     a_poll_interval := a_poll_interval kw;
     a_poll_timeout := a_poll_timeout kw |}.

(** The arguments of [scrape_html(url, **kw)]. *)
Definition scrape_html_args (url : string) (kw : scrape_args) : scrape_args :=
  with_mode url "html" kw.

(** The arguments of [scrape_pdf(url, format, **kw)]:
    [mode="pdf", pdf_format=format]. *)
Definition scrape_pdf_args (url format : string) (kw : scrape_args)
  : scrape_args :=
  {| a_url := url; a_mode := "pdf"; a_sync := a_sync kw;
     a_advanced := a_advanced kw;
     a_cost_controls := a_cost_controls kw;
     a_cache := a_cache kw; a_cache_ttl := a_cache_ttl kw;
     a_force_refresh := a_force_refresh kw;
     a_include_raw_html := a_include_raw_html kw;
     a_timeout := a_timeout kw; a_formats := a_formats kw;
     a_extraction_schema := a_extraction_schema kw;
     a_extraction_prompt := a_extraction_prompt kw;
     a_extraction_profile := a_extraction_profile kw;
     a_evidence := a_evidence kw;
     a_promote_schema_org := a_promote_schema_org kw;
     a_wait_for := a_wait_for kw;
     a_screenshot := a_screenshot kw; a_wait_until := a_wait_until kw;
     a_enable_scroll := a_enable_scroll kw;
     a_pdf_format := format;
     a_ocr_language := a_ocr_language kw;
     a_poll_interval := a_poll_interval kw;
     a_poll_timeout := a_poll_timeout kw |}.

(** The arguments of [scrape_ocr(url, language, **kw)]:
    [mode="ocr", ocr_language=language]. *)
Definition scrape_ocr_args (url language : string) (kw : scrape_args)
  : scrape_args :=
  {| a_url := url; a_mode := "ocr"; a_sync := a_sync kw;
     a_advanced := a_advanced kw;
     a_cost_controls := a_cost_controls kw;
     a_cache := a_cache kw; a_cache_ttl := a_cache_ttl kw;
     a_force_refresh := a_force_refresh kw;
     a_include_raw_html := a_include_raw_html kw;
     a_timeout := a_timeout kw; a_formats := a_formats kw;
     a_extraction_schema := a_extraction_schema kw;
     a_extraction_prompt := a_extraction_prompt kw;
     a_extraction_profile := a_extraction_profile kw;
     a_evidence := a_evidence kw;
     a_promote_schema_org := a_promote_schema_org kw;
     a_wait_for := a_wait_for kw;
     a_screenshot := a_screenshot kw; a_wait_until := a_wait_until kw;
     a_enable_scroll := a_enable_scroll kw;
     a_pdf_format := a_pdf_format kw;
     a_ocr_language := language;
     a_poll_interval := a_poll_interval kw;
     a_poll_timeout := a_poll_timeout kw |}.

(** [s.rstrip("/")]: [s] without its trailing slashes. *)
Fixpoint rstrip_slash (s : string) : string :=
  match s with
  | EmptyString => EmptyString
  | String c s' =>
      match rstrip_slash s' with
      | EmptyString =>
          if Ascii.eqb c "/" then EmptyString else String c EmptyString
      | t => String c t
      end
  end.

(** A string of [n] slashes. *)
Fixpoint slashes (n : nat) : string :=
  match n with
  | O => EmptyString
  | S k => String "/" (slashes k)
  end.

(** The last character of [s] is a slash. *)
Fixpoint ends_with_slash (s : string) : bool :=
  match s with
  | EmptyString => false
  | String c EmptyString => Ascii.eqb c "/"
  | String _ s' => ends_with_slash s'
  end.

(** What [AlterLab.__init__] stores. *)
Record AlterLabClient : Type := mkAlterLabClient {
  api_key : string;
  base_url : string;
  settings : AlterLab
}.

Definition DEFAULT_BASE_URL : string := "https://api.alterlab.io".

(** [AlterLab.__init__]; [env_api_key] is
    [os.environ.get("ALTERLAB_API_KEY")]. *)
Definition AlterLab_init (api_key_arg env_api_key base_url_arg : option string)
           (timeout_arg max_retries_arg : Z) (retry_delay_arg : Q)
  : result AlterLabClient :=
  (* api_key or os.environ.get("ALTERLAB_API_KEY") *)
  let key := if opt_str_truthy api_key_arg then api_key_arg else env_api_key in
  match key with
  | Some k =>
      if (k =? "")%string then Raise PyValueError
      else
        (* (base_url or self.DEFAULT_BASE_URL).rstrip("/") *)
        let base := match base_url_arg with
                    | Some u => if (u =? "")%string then DEFAULT_BASE_URL else u
                    | None => DEFAULT_BASE_URL
                    end in
        Ok (mkAlterLabClient k (rstrip_slash base)
              (mkAlterLab timeout_arg max_retries_arg retry_delay_arg))
  | None => Raise PyValueError
  end.

(* ===================================================================== *)
(** * Worked inputs                                                        *)
(* ===================================================================== *)

(** A reading of unsigned decimal numerals ("7", "120"): on them Python's
    [int] and [float] give the same number.  It instantiates the two
    builtins in the worked examples, whose headers are such numerals. *)
Fixpoint digits_value (s : string) (acc : Z) : option Z :=
  match s with
  | EmptyString => Some acc
  | String c s' =>
      let n := Z.of_nat (nat_of_ascii c) in
      if (48 <=? n) && (n <=? 57)
      then digits_value s' (10 * acc + (n - 48))
      else None
  end.

Definition decimal_int (s : string) : option Z :=
  match s with
  | EmptyString => None
  | _ => digits_value s 0
  end.

Definition decimal_float (s : string) : option Q :=
  option_map inject_Z (decimal_int s).

(** The job ids of the worked examples are strings, which an f-string
    copies as they are; no other value is formatted there. *)
Definition format_unused (v : pyval) : string := "".

(** [AlterLab(api_key=...)]: [DEFAULT_TIMEOUT], [DEFAULT_MAX_RETRIES],
    [DEFAULT_RETRY_DELAY]. *)
Definition AlterLab_default : AlterLab := mkAlterLab 120 3 1.

(** A mocked response with an empty body that is not JSON. *)
Definition status_response (st : Z) (retry_after : option string) : response :=
  mkResponse st "" None retry_after.

(** A mocked response with a JSON body. *)
Definition json_response (st : Z) (body : pyval) : response :=
  mkResponse st "" (Some body) None.

(** [scrape(url, advanced=adv)] *)
Definition scrape_with_advanced (url : string) (adv : AdvancedOptions)
  : scrape_args :=
  {| a_url := url; a_mode := "auto"; a_sync := true;
     a_advanced := Some adv; a_cost_controls := None;
     a_cache := false; a_cache_ttl := None; a_force_refresh := false;
     a_include_raw_html := false; a_timeout := None; a_formats := None;
     a_extraction_schema := None; a_extraction_prompt := None;
     a_extraction_profile := None; a_evidence := false;
     a_promote_schema_org := true; a_wait_for := None;
     a_screenshot := false; a_wait_until := "networkidle";
     a_enable_scroll := None; a_pdf_format := "markdown";
     a_ocr_language := "eng";
     a_poll_interval := 1 # 2; a_poll_timeout := 300 # 1 |}.

(** [scrape(url, sync=False)] *)
Definition scrape_no_wait (url : string) : scrape_args :=
  {| a_url := url; a_mode := "auto"; a_sync := false;
     a_advanced := None; a_cost_controls := None;
     a_cache := false; a_cache_ttl := None; a_force_refresh := false;
     a_include_raw_html := false; a_timeout := None; a_formats := None;
     a_extraction_schema := None; a_extraction_prompt := None;
     a_extraction_profile := None; a_evidence := false;
     a_promote_schema_org := true; a_wait_for := None;
     a_screenshot := false; a_wait_until := "networkidle";
     a_enable_scroll := None; a_pdf_format := "markdown";
     a_ocr_language := "eng";
     a_poll_interval := 1 # 2; a_poll_timeout := 300 # 1 |}.

(** A mocked answer of the job resource with just a status. *)
Definition job_response (status : string) : response :=
  json_response 200 (PDict [("status", PStr status)]).

(** A mocked answer of the job resource for a finished job. *)
Definition finished_job_response : response :=
  json_response 200
    (PDict [("status", PStr "succeeded");
            ("result", PDict [("content", PStr "hello")])]).

(** A client that is given [max_retries=1025]. *)
Definition AlterLab_1025_retries : AlterLab := mkAlterLab 120 1025 1.

(** A client that is given [max_retries=0]. *)
Definition AlterLab_no_retries : AlterLab := mkAlterLab 120 0 1.

(* ===================================================================== *)
(** * Transport with retry, job poller, facade                             *)
(* ===================================================================== *)

(** How an iteration of a [for] loop ends: [return response] or [continue]
    (on every path that continues, [last_error] has just been assigned). *)
Inductive loop_ctl : Type :=
| LReturn (r : response)
| LContinue (last_error : exn).

(** [a > b] on seconds *)
Definition Qgt_bool (a b : Q) : bool := negb (Qle_bool a b).

Section Client.

(** Python's builtins [float(s)] and [int(s)] on a header string ([None]:
    the call raises [ValueError]) and the text an f-string gives a value
    that is not a string. *)
Variable py_float : string -> option Q.
Variable py_int : string -> option Z.
Variable py_format : pyval -> string.

Definition float_of (h : string) : result Q :=
  match py_float h with
  | Some q => Ok q
  | None => Raise PyValueError
  end.

Definition int_of (h : string) : result Z :=
  match py_int h with
  | Some z => Ok z
  | None => Raise PyValueError
  end.

(** [f"{v}"] *)
Definition fstr (v : pyval) : string :=
  match v with
  | PStr s => s
  | _ => py_format v
  end.

(** The [detail] computed at the top of [_handle_error_response]: any
    exception of [response.json()] or of [.get] falls back to the text. *)
Definition error_detail (r : response) : pyval :=
  match resp_json r with
  | Some (PDict d) => dict_get_default d "detail" (PStr (resp_text r))
  | _ => PStr (resp_text r)
  end.

(** [_handle_error_response]: raises the typed error of the status;
    returns normally below 400. *)
Definition _handle_error_response (r : response) : result unit :=
  let detail := error_detail r in
  let st := resp_status_code r in
  if st =? 401 then Raise (AuthenticationError 401 detail (Some r))
  else if st =? 402 then Raise (InsufficientCreditsError 402 detail (Some r))
  else if st =? 422 then Raise (ValidationError 422 detail (Some r))
  else if st =? 429 then
    match resp_retry_after r with
    | Some h =>
        if negb (h =? "")%string then
          (let* n := int_of h in
           Raise (RateLimitError detail (Some n) (Some r)))%result
        else Raise (RateLimitError detail None (Some r))
    | None => Raise (RateLimitError detail None (Some r))
    end
  else if 400 <=? st then Raise (AlterLabAPIError st detail (Some r))
  else Ok tt.

(** [self.retry_delay * (2**attempt)]: a float times an int.  Python turns
    the int into a float first, and raises [OverflowError] when it is too
    large for one, which [2**attempt] is from [2**1024] on. *)
Definition backoff (self : AlterLab) (attempt : Z) : result Q :=
  if 1024 <=? attempt then Raise PyOverflowError
  else Ok (retry_delay self * inject_Z (2 ^ attempt))%Q.

(** The body of the [try] in [_request_with_retry], at one [attempt]. *)
Definition attempt_body (s : surface) (self : AlterLab)
           (method path : string) (body : option pyval) (attempt : Z)
  : M loop_ctl :=
  (response <- client_request s method path body ;;
   let st := resp_status_code response in
   if 400 <=? st then
     (if (400 <=? st) && (st <? 500) && negb (st =? 429)
      then lift (_handle_error_response response)
      else ret tt) ;;;
     let last_error :=
       AlterLabAPIError st (PStr (resp_text response)) (Some response) in
     match resp_retry_after response with
     | Some h =>
         if negb (h =? "")%string
         then (d <- lift (float_of h) ;; sleep s d)
         else (d <- lift (backoff self attempt) ;; sleep s d)
     | None => (d <- lift (backoff self attempt) ;; sleep s d)
     end ;;;
     ret (LContinue last_error)
   else ret (LReturn response))%client.

(** The [except (httpx.TimeoutException, httpx.NetworkError)] clause. *)
Definition network_handler (s : surface) (self : AlterLab) (attempt : Z)
           (e : string) : M loop_ctl :=
  (let last_error := AlterLabError ("Network error: " ++ e) in
   (if attempt <? max_retries self - 1
    then (d <- lift (backoff self attempt) ;; sleep s d)
    else ret tt) ;;;
   ret (LContinue last_error))%client.

(** [for attempt in range(self.max_retries): ...] followed by
    [raise last_error or AlterLabError("Request failed after retries")];
    [remaining] counts the iterations still to run. *)
Fixpoint retry_loop (s : surface) (self : AlterLab) (method path : string)
         (body : option pyval) (remaining : nat) (attempt : Z)
         (last_error : option exn) : M response :=
  match remaining with
  | O =>
      raise (match last_error with
             | Some e => e
             | None => AlterLabError "Request failed after retries"
             end)
  | S k =>
      (ctl <- try_httpx (attempt_body s self method path body attempt)
                        (network_handler s self attempt) ;;
       match ctl with
       | LReturn r => ret r
       | LContinue e =>
           retry_loop s self method path body k (attempt + 1) (Some e)
       end)%client
  end.

(** The shared text of [_request_with_retry] and
    [_async_request_with_retry]. *)
Definition request_with_retry_on (s : surface) (self : AlterLab)
           (method path : string) (body : option pyval) : M response :=
  retry_loop s self method path body (Z.to_nat (max_retries self)) 0 None.

Definition _request_with_retry := request_with_retry_on Blocking.
Definition _async_request_with_retry := request_with_retry_on Suspending.

(** [get_job_status] / [get_job_status_async] *)
Definition get_job_status_on (s : surface) (self : AlterLab)
           (job_id : pyval) : M JobStatus :=
  (response <- request_with_retry_on s self "GET"
                 ("/api/v1/jobs/" ++ fstr job_id) None ;;
   data <- lift (response_json response) ;;
   st <- lift (py_get data "status" PNone) ;;
   result <-
     (if py_eq_str st "succeeded" || py_eq_str st "completed" then
        (res <- lift (py_get data "result" PNone) ;;
         if truthy res then
           (raw <- lift (py_getitem data "result") ;;
            parsed <- lift (_parse_scrape_response raw) ;;
            ret (Some parsed))
         else ret None)
      else ret None) ;;
   status <- lift (py_get data "status" (PStr "pending")) ;;
   error <- lift (py_get data "error" PNone) ;;
   ret (mkJobStatus job_id status result error))%client.

Definition get_job_status := get_job_status_on Blocking.
Definition get_job_status_async := get_job_status_on Suspending.

(** The [while True] loop of [wait_for_job]; [ticks] are the readings
    [time.time()] will give, one per iteration. *)
Fixpoint wait_loop (s : surface) (self : AlterLab) (job_id : pyval)
         (poll_interval poll_timeout start_time : Q) (ticks : list Q)
  : M ScrapeResult :=
  match ticks with
  | [] => raise MockExhausted
  | now :: ticks' =>
      let elapsed := (now - start_time)%Q in
      if Qgt_bool elapsed poll_timeout then
        raise (TimeoutError job_id poll_timeout)
      else
        (status <- get_job_status_on s self job_id ;;
         if py_eq_str (js_status status) "succeeded" then
           match js_result status with
           | Some r => ret r
           | None =>
               raise (ScrapeError 200
                        (PStr "Job completed but no result returned") None)
           end
         else if py_eq_str (js_status status) "failed" then
           raise (ScrapeError 422
                    (py_or (js_error status) (PStr "Job failed"))
                    (Some "JOB_FAILED"))
         else
           sleep s poll_interval ;;;
           wait_loop s self job_id poll_interval poll_timeout
                     start_time ticks')%client
  end.

(** [wait_for_job] / [wait_for_job_async]; [clock] are the readings of
    [time.time()] during the call, [start_time] first. *)
Definition wait_for_job_on (s : surface) (self : AlterLab) (clock : list Q)
           (job_id : pyval) (poll_interval poll_timeout : Q)
  : M ScrapeResult :=
  match clock with
  | [] => raise MockExhausted
  | start_time :: ticks =>
      wait_loop s self job_id poll_interval poll_timeout start_time ticks
  end.

Definition wait_for_job := wait_for_job_on Blocking.
Definition wait_for_job_async := wait_for_job_on Suspending.

(** [scrape] / [scrape_async] *)
Definition scrape_on (s : surface) (self : AlterLab) (clock : list Q)
           (a : scrape_args) : M ScrapeResult :=
  (let payload := _build_scrape_payload self a in
   response <- request_with_retry_on s self "POST" "/api/v1/scrape"
                 (Some (PDict payload)) ;;
   data <- lift (response_json response) ;;
   is_job <- (if resp_status_code response =? 202
              then lift (py_contains "job_id" data)
              else ret false) ;;
   if is_job then
     if negb (a_sync a) then
       (job_id <- lift (py_getitem data "job_id") ;;
        ret (ScrapeResult_init (PStr (a_url a)) (PInt 202)
                               (PDict [("job_id", job_id)])
                               (PDict [("job_id", job_id)])))
     else
       (job_id <- lift (py_getitem data "job_id") ;;
        wait_for_job_on s self clock job_id
                        (a_poll_interval a) (a_poll_timeout a))
   else lift (_parse_scrape_response data))%client.

Definition scrape := scrape_on Blocking.
Definition scrape_async := scrape_on Suspending.

(** [estimate_cost] / [estimate_cost_async] *)
Definition estimate_cost_on (s : surface) (self : AlterLab)
           (url mode : string) (advanced : option AdvancedOptions)
           (cost_controls : option CostControls) : M CostEstimate :=
  (let payload := estimate_payload url mode advanced cost_controls in
   response <- request_with_retry_on s self "POST" "/api/v1/scrape/estimate"
                 (Some (PDict payload)) ;;
   data <- lift (response_json response) ;;
   e_url <- lift (py_get data "url" (PStr url)) ;;
   e_tier <- lift (py_get data "estimated_tier" (PStr "2")) ;;
   e_credits <- lift (py_get data "estimated_credits" (PInt 2)) ;;
   e_confidence <- lift (py_get data "confidence" (PStr "medium")) ;;
   e_max <- lift (py_get data "max_possible_credits" (PInt 20)) ;;
   e_reasoning <- lift (py_get data "reasoning" (PStr "")) ;;
   ret (mkCostEstimate e_url e_tier e_credits e_confidence e_max
                       e_reasoning))%client.

Definition estimate_cost := estimate_cost_on Blocking.
Definition estimate_cost_async := estimate_cost_on Suspending.

(** [get_usage] / [get_usage_async] *)
Definition get_usage_on (s : surface) (self : AlterLab) : M UsageStats :=
  (response <- request_with_retry_on s self "GET" "/api/v1/usage" None ;;
   data <- lift (response_json response) ;;
   u_available <- lift (py_get data "credits_available" (PInt 0)) ;;
   u_used <- lift (py_get data "credits_used_month" (PInt 0)) ;;
   u_limit <- lift (py_get data "credits_limit" (PInt 0)) ;;
   u_plan <- lift (py_get data "plan" (PStr "")) ;;
   u_start <- lift (py_get data "period_start" (PStr "")) ;;
   u_end <- lift (py_get data "period_end" (PStr "")) ;;
   ret (mkUsageStats u_available u_used u_limit u_plan u_start u_end))%client.

Definition get_usage := get_usage_on Blocking.
Definition get_usage_async := get_usage_on Suspending.

(** [scrape_html], [scrape_js], [scrape_pdf], [scrape_ocr], and their
    twins of [AsyncAlterLab]. *)
Definition scrape_html_on (s : surface) (self : AlterLab) (clock : list Q)
           (url : string) (kw : scrape_args) : M ScrapeResult :=
  scrape_on s self clock (scrape_html_args url kw).

Definition scrape_js_on (s : surface) (self : AlterLab) (clock : list Q)
           (url : string) (screenshot : bool) (wait_for : option string)
           (kw : scrape_args) : M ScrapeResult :=
  scrape_on s self clock (scrape_js_args url screenshot wait_for kw).

Definition scrape_pdf_on (s : surface) (self : AlterLab) (clock : list Q)
           (url format : string) (kw : scrape_args) : M ScrapeResult :=
  scrape_on s self clock (scrape_pdf_args url format kw).

Definition scrape_ocr_on (s : surface) (self : AlterLab) (clock : list Q)
           (url language : string) (kw : scrape_args) : M ScrapeResult :=
  scrape_on s self clock (scrape_ocr_args url language kw).

Definition scrape_html := scrape_html_on Blocking.
Definition scrape_js := scrape_js_on Blocking.
Definition scrape_pdf := scrape_pdf_on Blocking.
Definition scrape_ocr := scrape_ocr_on Blocking.


(* =================================================================== *)
(** ** Vocabulary of the statements                                     *)
(* =================================================================== *)

(** The statuses [_request_with_retry] retries: 429 and 500 and above. *)
Definition retryable (st : Z) : Prop := st = 429 \/ 500 <= st.

(** The statuses it hands to [_handle_error_response]. *)
Definition terminal_client_error (st : Z) : Prop :=
  400 <= st < 500 /\ st <> 429.

(** The sleep that follows a retryable response lasts [d]: the value of
    its [Retry-After] header when it has one, [dflt] otherwise. *)
Definition honours_retry_after (r : response) (dflt d : Q) : Prop :=
  match resp_retry_after r with
  | Some h => h <> "" /\ py_float h = Some d
  | None => d = dflt
  end.

(** The typed error of a status in [400, 500) other than 429. *)
Definition typed_error (r : response) : exn :=
  let st := resp_status_code r in
  if st =? 401 then AuthenticationError 401 (error_detail r) (Some r)
  else if st =? 402 then InsufficientCreditsError 402 (error_detail r) (Some r)
  else if st =? 422 then ValidationError 422 (error_detail r) (Some r)
  else AlterLabAPIError st (error_detail r) (Some r).

(** The argument of the sleep after a retryable response, as the code
    computes it. *)
Definition retry_sleep_secs (self : AlterLab) (attempt : Z) (r : response)
  : result Q :=
  match resp_retry_after r with
  | Some h => if negb (h =? "")%string then float_of h
              else backoff self attempt
  | None => backoff self attempt
  end.

(** The value of [retry_delay * (2**attempt)] when it can be computed,
    that is for an attempt below 1024. *)
Definition backoff_secs (self : AlterLab) (attempt : Z) : Q :=
  (retry_delay self * inject_Z (2 ^ attempt))%Q.

Definition api_error_of (r : response) : exn :=
  AlterLabAPIError (resp_status_code r) (PStr (resp_text r)) (Some r).

(** The sleep after a retryable response can be computed: its
    [Retry-After] header is absent, empty, or accepted by [float]. *)
Definition sleep_defined (r : response) : Prop :=
  match resp_retry_after r with
  | Some h => h = "" \/ py_float h <> None
  | None => True
  end.

Definition attempt_events (s : surface) (m p : string) (b : option pyval)
           (d : Q) : list event :=
  [EvRequest s m p b; EvSleep s d].

(** The events of one call of the transport: sleeps, and requests with
    the method, path and body of the call. *)
Definition transport_event (s : surface) (m p : string) (b : option pyval)
           (e : event) : Prop :=
  is_sleep e = true \/ e = EvRequest s m p b.

(** The [result] that [get_job_status] computes from a payload [d]. *)
Definition embedded_result (d : pydict) : result (option ScrapeResult) :=
  let st := dict_get_default d "status" PNone in
  if (py_eq_str st "succeeded" || py_eq_str st "completed")
     && truthy (dict_get_default d "result" PNone)
  then (let* raw := py_getitem (PDict d) "result" in
        let* parsed := _parse_scrape_response raw in
        Ok (Some parsed))%result
  else Ok None.

(** The status field of [d] is absent, or a string that names none of the
    four job states. *)
Definition unknown_status (d : pydict) : Prop :=
  dict_get d "status" = None
  \/ exists st, dict_get d "status" = Some (PStr st)
                /\ st <> "pending" /\ st <> "running"
                /\ st <> "succeeded" /\ st <> "failed".

(** [get_job_status] also reads the embedded result of a payload whose
    status is ["completed"]: that result, when it is true, parses. *)
Definition completed_result_parses (d : pydict) : Prop :=
  dict_get d "status" = Some (PStr "completed") ->
  forall raw, dict_get d "result" = Some raw -> truthy raw = true ->
              exists parsed, _parse_scrape_response raw = Ok parsed.

(** No key of [d] holds [None]. *)
Definition no_null_values (d : pydict) : Prop :=
  Forall (fun kv => snd kv <> PNone) d.

(** C3 as the specification words it: no null at the top level of the
    payload nor inside an included advanced-options block. *)
Definition payload_null_free (payload : pydict) : Prop :=
  no_null_values payload
  /\ forall blk, dict_get payload "advanced" = Some (PDict blk) ->
                 no_null_values blk.

(** One escalation entry [ed], with the defaults for its missing keys. *)
Definition escalation_of (ed : pydict) : TierEscalation :=
  {| te_tier := dict_get_default ed "tier" (PStr "1");
     te_result := dict_get_default ed "result" (PStr "success");
     te_credits := dict_get_default ed "credits" (PInt 0);
     te_duration_ms := dict_get_default ed "duration_ms" PNone;
     te_error := dict_get_default ed "error" PNone |}.

(** A failure the transport retries: a network-level failure, or a
    retryable response whose sleep can be computed. *)
Definition transient (o : net_outcome) : Prop :=
  match o with
  | NetFail _ => True
  | Resp r => retryable (resp_status_code r) /\ sleep_defined r
  end.

(** [ds] are the sleeps after the failures [fails], the first of which is
    attempt number [attempt]: the backoff of the attempt after a network
    failure, what the code computes from the response otherwise. *)
Fixpoint delays_from (self : AlterLab) (attempt : Z)
         (fails : list net_outcome) (ds : list Q) : Prop :=
  match fails, ds with
  | [], [] => True
  | o :: fails', d :: ds' =>
      match o with
      | NetFail _ => d = backoff_secs self attempt
      | Resp r => retry_sleep_secs self attempt r = Ok d
      end
      /\ delays_from self (attempt + 1) fails' ds'
  | _, _ => False
  end.

(** A status response that leaves the job unfinished: below 400, a JSON
    object, its status (if any) none of ["succeeded"], ["failed"],
    ["completed"]. *)
Definition polls_unfinished (r : response) : Prop :=
  resp_status_code r < 400
  /\ exists d,
      resp_json r = Some (PDict d)
      /\ py_eq_str (dict_get_default d "status" PNone) "succeeded" = false
      /\ py_eq_str (dict_get_default d "status" PNone) "failed" = false
      /\ py_eq_str (dict_get_default d "status" PNone) "completed" = false.

Definition is_dict (v : pyval) : bool :=
  match v with
  | PDict _ => true
  | _ => false
  end.

(** A computation that leaves the world as it found it. *)
Definition stateless {A : Type} (m : M A) : Prop :=
  forall w, snd (m w) = w.

(** The path of the status request of a job. *)
Definition job_path (job_id : pyval) : string := "/api/v1/jobs/" ++ fstr job_id.

(* =================================================================== *)
(** ** One iteration of the retry loop                                   *)
(* =================================================================== *)

Lemma handle_terminal_client_error (r : response) :
  terminal_client_error (resp_status_code r) ->
  _handle_error_response r = Raise (typed_error r).
Proof.
  intros [[Hlo Hhi] Hne]. unfold _handle_error_response, typed_error.
  destruct (resp_status_code r =? 401); [reflexivity|].
  destruct (resp_status_code r =? 402); [reflexivity|].
  destruct (resp_status_code r =? 422); [reflexivity|].
  destruct (Z.eqb_spec (resp_status_code r) 429) as [E|_]; [contradiction|].
  destruct (Z.leb_spec 400 (resp_status_code r)); [reflexivity|lia].
Qed.

Lemma retry_step_success s self m p b k attempt le w r rest :
  script w = Resp r :: rest ->
  resp_status_code r < 400 ->
  retry_loop s self m p b (S k) attempt le w
  = (Ok r, mkWorld rest (trace w ++ [EvRequest s m p b])).
Proof.
  intros Hs Hst. cbn [retry_loop].
  unfold bind, try_httpx, attempt_body, bind, client_request.
  rewrite Hs. cbn [log trace script].
  destruct (Z.leb_spec 400 (resp_status_code r)); [lia|]. reflexivity.
Qed.

Lemma retry_step_client_error s self m p b k attempt le w r rest :
  script w = Resp r :: rest ->
  terminal_client_error (resp_status_code r) ->
  retry_loop s self m p b (S k) attempt le w
  = (Raise (typed_error r), mkWorld rest (trace w ++ [EvRequest s m p b])).
Proof.
  intros Hs Hst. pose proof (handle_terminal_client_error r Hst) as Hh.
  destruct Hst as [[Hlo Hhi] Hne]. cbn [retry_loop].
  unfold bind, try_httpx, attempt_body, bind, client_request.
  rewrite Hs. cbn [log trace script].
  destruct (Z.leb_spec 400 (resp_status_code r)); [|lia].
  destruct (Z.ltb_spec (resp_status_code r) 500); [|lia].
  destruct (Z.eqb_spec (resp_status_code r) 429); [contradiction|].
  cbn [andb negb]. unfold lift. rewrite Hh.
  unfold typed_error.
  destruct (resp_status_code r =? 401); [reflexivity|].
  destruct (resp_status_code r =? 402); [reflexivity|].
  destruct (resp_status_code r =? 422); reflexivity.
Qed.

Lemma backoff_below_1024 self attempt :
  attempt < 1024 -> backoff self attempt = Ok (backoff_secs self attempt).
Proof.
  intros H. unfold backoff.
  destruct (Z.leb_spec 1024 attempt); [lia|reflexivity].
Qed.

Lemma backoff_from_1024 self attempt :
  1024 <= attempt -> backoff self attempt = Raise PyOverflowError.
Proof.
  intros H. unfold backoff.
  destruct (Z.leb_spec 1024 attempt); [reflexivity|lia].
Qed.

Lemma retry_sleep_secs_raises self attempt r ex :
  retry_sleep_secs self attempt r = Raise ex ->
  ex = PyValueError \/ ex = PyOverflowError.
Proof.
  unfold retry_sleep_secs, float_of, backoff.
  destruct (resp_retry_after r) as [h|];
    [destruct (negb (h =? "")%string); [destruct (py_float h)|]|];
    try destruct (1024 <=? attempt); intros H;
    try discriminate H; injection H as <-; auto.
Qed.

Lemma honours_retry_after_secs self attempt r d :
  attempt < 1024 ->
  honours_retry_after r (backoff_secs self attempt) d ->
  retry_sleep_secs self attempt r = Ok d.
Proof.
  intros Hlt. unfold honours_retry_after, retry_sleep_secs.
  destruct (resp_retry_after r) as [h|].
  - intros [Hne Hf]. destruct (String.eqb_spec h "") as [E|_]; [contradiction|].
    cbn [negb]. unfold float_of. rewrite Hf. reflexivity.
  - intros ->. apply backoff_below_1024. exact Hlt.
Qed.

(** The body of an attempt that gets a retryable response. *)
Lemma attempt_retryable s self m p b attempt w r rest :
  script w = Resp r :: rest ->
  retryable (resp_status_code r) ->
  attempt_body s self m p b attempt w
  = match retry_sleep_secs self attempt r with
    | Ok d =>
        (Ok (LContinue (api_error_of r)),
         mkWorld rest (trace w ++ [EvRequest s m p b; EvSleep s d]))
    | Raise ex => (Raise ex, mkWorld rest (trace w ++ [EvRequest s m p b]))
    end.
Proof.
  intros Hs Hst.
  unfold attempt_body, bind, client_request.
  rewrite Hs. cbn [log trace script].
  assert (H400 : (400 <=? resp_status_code r) = true)
    by (apply Z.leb_le; destruct Hst; lia).
  assert (Hgate : ((400 <=? resp_status_code r) && (resp_status_code r <? 500)
                   && negb (resp_status_code r =? 429)) = false).
  { rewrite H400. destruct Hst as [E|E].
    - rewrite E. reflexivity.
    - destruct (Z.ltb_spec (resp_status_code r) 500); [lia|reflexivity]. }
  rewrite Hgate, H400. unfold ret, retry_sleep_secs, lift.
  destruct (resp_retry_after r) as [h|];
    [destruct (negb (h =? "")%string); [destruct (float_of h)|
                                        destruct (backoff self attempt)]
    |destruct (backoff self attempt)];
    try reflexivity;
    unfold sleep, log; cbn [trace script]; rewrite <- app_assoc; reflexivity.
Qed.

Lemma retry_step_retryable s self m p b k attempt le w r rest d :
  script w = Resp r :: rest ->
  retryable (resp_status_code r) ->
  retry_sleep_secs self attempt r = Ok d ->
  retry_loop s self m p b (S k) attempt le w
  = retry_loop s self m p b k (attempt + 1) (Some (api_error_of r))
      (mkWorld rest (trace w ++ [EvRequest s m p b; EvSleep s d])).
Proof.
  intros Hs Hst Hd. cbn [retry_loop].
  unfold bind at 1. unfold try_httpx.
  rewrite (attempt_retryable s self m p b attempt w r rest Hs Hst), Hd.
  reflexivity.
Qed.

(** A retryable response whose sleep cannot be computed ends the call. *)
Lemma retry_step_retryable_raises s self m p b k attempt le w r rest ex :
  script w = Resp r :: rest ->
  retryable (resp_status_code r) ->
  retry_sleep_secs self attempt r = Raise ex ->
  retry_loop s self m p b (S k) attempt le w
  = (Raise ex, mkWorld rest (trace w ++ [EvRequest s m p b])).
Proof.
  intros Hs Hst Hd. cbn [retry_loop].
  unfold bind at 1. unfold try_httpx.
  rewrite (attempt_retryable s self m p b attempt w r rest Hs Hst), Hd.
  destruct (retry_sleep_secs_raises self attempt r ex Hd) as [-> | ->];
    reflexivity.
Qed.

(** An attempt that fails at network level, in general: the sleep is taken
    unless the attempt is the last one, and computing it can fail. *)
Lemma retry_step_network_gen s self m p b k attempt le w e rest :
  script w = NetFail e :: rest ->
  retry_loop s self m p b (S k) attempt le w
  = if attempt <? max_retries self - 1 then
      match backoff self attempt with
      | Ok d =>
          retry_loop s self m p b k (attempt + 1)
            (Some (AlterLabError ("Network error: " ++ e)))
            (mkWorld rest (trace w ++ [EvRequest s m p b; EvSleep s d]))
      | Raise ex => (Raise ex, mkWorld rest (trace w ++ [EvRequest s m p b]))
      end
    else
      retry_loop s self m p b k (attempt + 1)
        (Some (AlterLabError ("Network error: " ++ e)))
        (mkWorld rest (trace w ++ [EvRequest s m p b])).
Proof.
  intros Hs. cbn [retry_loop].
  unfold bind at 1. unfold try_httpx, attempt_body, bind, client_request.
  rewrite Hs. cbn [log trace script]. unfold network_handler, bind, lift.
  destruct (attempt <? max_retries self - 1); [|reflexivity].
  destruct (backoff self attempt) as [d|ex]; [|reflexivity].
  unfold sleep, ret, log. cbn [trace script].
  rewrite <- app_assoc. reflexivity.
Qed.

Lemma retry_step_network s self m p b k attempt le w e rest :
  script w = NetFail e :: rest ->
  attempt < 1024 \/ max_retries self - 1 <= attempt ->
  retry_loop s self m p b (S k) attempt le w
  = retry_loop s self m p b k (attempt + 1)
      (Some (AlterLabError ("Network error: " ++ e)))
      (mkWorld rest
         (trace w ++ EvRequest s m p b ::
            (if attempt <? max_retries self - 1
             then [EvSleep s (backoff_secs self attempt)] else []))).
Proof.
  intros Hs Hok. rewrite (retry_step_network_gen _ _ _ _ _ _ _ _ _ e rest Hs).
  destruct (Z.ltb_spec attempt (max_retries self - 1)); [|reflexivity].
  rewrite backoff_below_1024 by lia. reflexivity.
Qed.

Lemma retry_loop_exhausted s self m p b attempt le w :
  retry_loop s self m p b 0 attempt le w
  = (Raise (match le with
            | Some e => e
            | None => AlterLabError "Request failed after retries"
            end), w).
Proof. reflexivity. Qed.

(* =================================================================== *)
(** ** Transport with retry                                              *)
(* =================================================================== *)

(** C1. With [max_retries = 3] and the responses 503, 503, 200, the
    synchronous transport sleeps exactly twice, for [retry_delay * 1]
    and then [retry_delay * 2] seconds (for the value of the
    [Retry-After] header of the respective response when it has one),
    and returns the 200 response. *)
Theorem C1_retry_503_503_200
  (self : AlterLab) (m p : string) (b : option pyval)
  (r1 r2 r3 : response) (rest : list net_outcome) (tr : list event)
  (d1 d2 : Q) :
  max_retries self = 3 ->
  resp_status_code r1 = 503 ->
  resp_status_code r2 = 503 ->
  resp_status_code r3 = 200 ->
  honours_retry_after r1 (retry_delay self * 1)%Q d1 ->
  honours_retry_after r2 (retry_delay self * 2)%Q d2 ->
  _request_with_retry self m p b
    (mkWorld (Resp r1 :: Resp r2 :: Resp r3 :: rest) tr)
  = (Ok r3,
     mkWorld rest
       (tr ++ [EvRequest Blocking m p b; EvSleep Blocking d1;
               EvRequest Blocking m p b; EvSleep Blocking d2;
               EvRequest Blocking m p b])).
Proof.
  intros Hmax H1 H2 H3 Hd1 Hd2.
  unfold _request_with_retry, request_with_retry_on. rewrite Hmax.
  change (Z.to_nat 3) with 3%nat.
  rewrite (retry_step_retryable _ _ _ _ _ _ _ _ _ r1
             (Resp r2 :: Resp r3 :: rest) d1);
    [ | reflexivity | right; lia
      | apply honours_retry_after_secs; [lia | exact Hd1] ].
  rewrite (retry_step_retryable _ _ _ _ _ _ _ _ _ r2 (Resp r3 :: rest) d2);
    [ | reflexivity | right; lia
      | apply honours_retry_after_secs; [lia | exact Hd2] ].
  rewrite (retry_step_success _ _ _ _ _ _ _ _ _ r3 rest);
    [ | reflexivity | lia ].
  cbn [trace]. rewrite <- !app_assoc. reflexivity.
Qed.

(** C8. Whatever [max_retries] is, as soon as the transport receives a
    response whose status lies in [400, 500) and is not 429, it raises
    the typed error of that status (for 401 the authentication error):
    one request has been made, no sleep, and the rest of the script is
    left untouched. *)
Theorem C8_client_error_stops_immediately
  (s : surface) (self : AlterLab) (m p : string) (b : option pyval)
  (r : response) (rest : list net_outcome) (tr : list event) :
  0 < max_retries self ->
  terminal_client_error (resp_status_code r) ->
  request_with_retry_on s self m p b (mkWorld (Resp r :: rest) tr)
  = (Raise (typed_error r), mkWorld rest (tr ++ [EvRequest s m p b]))
  /\ (resp_status_code r = 401 ->
      typed_error r = AuthenticationError 401 (error_detail r) (Some r))
  /\ (resp_status_code r = 402 ->
      typed_error r = InsufficientCreditsError 402 (error_detail r) (Some r))
  /\ (resp_status_code r = 422 ->
      typed_error r = ValidationError 422 (error_detail r) (Some r))
  /\ (resp_status_code r <> 401 -> resp_status_code r <> 402 ->
      resp_status_code r <> 422 ->
      typed_error r
      = AlterLabAPIError (resp_status_code r) (error_detail r) (Some r)).
Proof.
  intros Hmax Hst. split; [|repeat split].
  - unfold request_with_retry_on.
    destruct (Z.to_nat (max_retries self)) as [|k] eqn:Hk; [lia|].
    apply retry_step_client_error; [reflexivity | exact Hst].
  - intros E. unfold typed_error. rewrite E. reflexivity.
  - intros E. unfold typed_error. rewrite E. reflexivity.
  - intros E. unfold typed_error. rewrite E. reflexivity.
  - intros N1 N2 N3. unfold typed_error.
    destruct (Z.eqb_spec (resp_status_code r) 401); [contradiction|].
    destruct (Z.eqb_spec (resp_status_code r) 402); [contradiction|].
    destruct (Z.eqb_spec (resp_status_code r) 422); [contradiction|].
    reflexivity.
Qed.

Lemma sleep_defined_secs self attempt r :
  attempt < 1024 ->
  sleep_defined r -> exists d, retry_sleep_secs self attempt r = Ok d.
Proof.
  intros Hlt. unfold sleep_defined, retry_sleep_secs, float_of.
  rewrite (backoff_below_1024 self attempt Hlt).
  destruct (resp_retry_after r) as [h|]; [|eauto].
  destruct (String.eqb_spec h "") as [E0|Hne]; cbn [negb]; [eauto|].
  intros [E0|Hf]; [contradiction|].
  destruct (py_float h) as [d|]; [eauto|congruence].
Qed.

Lemma count_sleeps_app evs1 evs2 :
  count_sleeps (evs1 ++ evs2) = (count_sleeps evs1 + count_sleeps evs2)%nat.
Proof. unfold count_sleeps. rewrite filter_app, length_app. reflexivity. Qed.

Lemma count_requests_app evs1 evs2 :
  count_requests (evs1 ++ evs2)
  = (count_requests evs1 + count_requests evs2)%nat.
Proof. unfold count_requests. rewrite filter_app, length_app. reflexivity. Qed.

Lemma count_attempt_events {A : Type} (f : A -> list event) (l : list A) :
  (forall x, count_sleeps (f x) = 1%nat /\ count_requests (f x) = 1%nat) ->
  count_sleeps (flat_map f l) = List.length l
  /\ count_requests (flat_map f l) = List.length l.
Proof.
  intros Hf. induction l as [|x l [IHs IHr]]; [split; reflexivity|].
  cbn [flat_map]. destruct (Hf x) as [Hs Hr].
  rewrite count_sleeps_app, count_requests_app, IHs, IHr, Hs, Hr.
  split; reflexivity.
Qed.

(** Every remaining attempt gets a retryable response: the loop sleeps
    after each of them and raises the error built from the last one. *)
Lemma retry_loop_all_retryable s self m p b (rs : list response) :
  forall attempt le tr rest,
    attempt + Z.of_nat (List.length rs) <= 1024 ->
    Forall (fun r => retryable (resp_status_code r)) rs ->
    Forall sleep_defined rs ->
    exists ds,
      List.length ds = List.length rs /\
      retry_loop s self m p b (List.length rs) attempt le
                 (mkWorld (map Resp rs ++ rest) tr)
      = (Raise (match fold_left (fun _ r => Some (api_error_of r)) rs le with
                | Some e => e
                | None => AlterLabError "Request failed after retries"
                end),
         mkWorld rest (tr ++ flat_map (attempt_events s m p b) ds)).
Proof.
  induction rs as [|r rs IH]; intros attempt le tr rest Hbound Hst Hsl.
  - exists []. split; [reflexivity|].
    cbn [List.length map app flat_map fold_left]. rewrite app_nil_r.
    apply retry_loop_exhausted.
  - inversion Hst as [|? ? Hr Hst']; subst.
    inversion Hsl as [|? ? Hd Hsl']; subst.
    cbn [List.length] in Hbound.
    destruct (sleep_defined_secs self attempt r ltac:(lia) Hd) as [d Hsecs].
    destruct (IH (attempt + 1) (Some (api_error_of r))
                 (tr ++ [EvRequest s m p b; EvSleep s d]) rest
                 ltac:(lia) Hst' Hsl')
      as [ds [Hlen Hrun]].
    exists (d :: ds). split; [cbn [List.length]; congruence|].
    cbn [List.length map app].
    rewrite (retry_step_retryable s self m p b _ attempt le _ r
               (map Resp rs ++ rest) d); [ | reflexivity | exact Hr | exact Hsecs ].
    cbn [trace fold_left flat_map].
    rewrite Hrun. rewrite <- app_assoc. reflexivity.
Qed.

(** Every remaining attempt fails at network level: the loop sleeps after
    each of them but the last, and raises the error of the last. *)
Lemma retry_loop_all_network s self m p b (es : list string) :
  forall (a : nat) le tr rest el,
    Z.of_nat a + Z.of_nat (List.length es) + 1 = max_retries self ->
    max_retries self <= 1025 ->
    retry_loop s self m p b (S (List.length es)) (Z.of_nat a) le
               (mkWorld (map NetFail (es ++ [el]) ++ rest) tr)
    = (Raise (AlterLabError ("Network error: " ++ el)),
       mkWorld rest
         (tr ++ flat_map (fun i => attempt_events s m p b
                                     (backoff_secs self (Z.of_nat i)))
                         (seq a (List.length es))
             ++ [EvRequest s m p b])).
Proof.
  induction es as [|e es IH]; intros a le tr rest el Hmax Hbound.
  - cbn [List.length map app seq flat_map] in *.
    rewrite (retry_step_network s self m p b _ _ le _ el rest);
      [|reflexivity|right; lia].
    destruct (Z.ltb_spec (Z.of_nat a) (max_retries self - 1)); [lia|].
    cbn [trace]. apply retry_loop_exhausted.
  - cbn [List.length map app seq flat_map] in *.
    rewrite (retry_step_network s self m p b _ _ le _ e
               (map NetFail (es ++ [el]) ++ rest)); [|reflexivity|left; lia].
    destruct (Z.ltb_spec (Z.of_nat a) (max_retries self - 1)); [|lia].
    cbn [trace].
    replace (Z.of_nat a + 1) with (Z.of_nat (S a)) by lia.
    rewrite IH by lia. unfold attempt_events at 2.
    rewrite <- !app_assoc. reflexivity.
Qed.

(** C10 (as amended). In the synchronous transport with [max_retries] at
    most 1024, when each of the [max_retries] attempts gets a retryable
    status (429 or at least 500), there are exactly [max_retries] sleeps,
    the last one after the last attempt and before the error is raised;
    with [max_retries] at most 1025, when each attempt fails at network
    level there are [max_retries - 1] sleeps, and the last attempt raises
    with no sleep after it.  (The bounds are those under which every
    backoff [retry_delay * (2**attempt)] of the run can be computed: from
    attempt 1024 on it raises [OverflowError].) *)
Theorem C10_sleeps_on_exhaustion
  (self : AlterLab) (m p : string) (b : option pyval)
  (rs : list response) (rl : response) (es : list string) (el : string)
  (rest : list net_outcome) (tr : list event) :
  Z.of_nat (List.length (rs ++ [rl])) = max_retries self ->
  Z.of_nat (List.length (es ++ [el])) = max_retries self ->
  Forall (fun r => retryable (resp_status_code r)) (rs ++ [rl]) ->
  Forall sleep_defined (rs ++ [rl]) ->
  (max_retries self <= 1024 ->
   exists evs d,
      _request_with_retry self m p b
        (mkWorld (map Resp (rs ++ [rl]) ++ rest) tr)
      = (Raise (api_error_of rl),
         mkWorld rest (tr ++ evs ++ [EvSleep Blocking d]))
      /\ count_sleeps (evs ++ [EvSleep Blocking d])
         = Z.to_nat (max_retries self)
      /\ count_requests (evs ++ [EvSleep Blocking d])
         = Z.to_nat (max_retries self))
  /\
  (max_retries self <= 1025 ->
   exists evs,
      _request_with_retry self m p b
        (mkWorld (map NetFail (es ++ [el]) ++ rest) tr)
      = (Raise (AlterLabError ("Network error: " ++ el)),
         mkWorld rest (tr ++ evs ++ [EvRequest Blocking m p b]))
      /\ count_sleeps (evs ++ [EvRequest Blocking m p b])
         = (Z.to_nat (max_retries self) - 1)%nat
      /\ count_requests (evs ++ [EvRequest Blocking m p b])
         = Z.to_nat (max_retries self)).
Proof.
  intros Hrs Hes Hst Hsl. split; intros Hbound.
  - destruct (retry_loop_all_retryable Blocking self m p b (rs ++ [rl])
                0 None tr rest ltac:(lia) Hst Hsl) as [ds [Hlen Hrun]].
    rewrite fold_left_app in Hrun. cbn [fold_left] in Hrun.
    assert (Hne : ds <> []).
    { intros ->. rewrite length_app in Hlen. cbn in Hlen. lia. }
    destruct (exists_last Hne) as [ds' [d Hds]]. subst ds.
    exists (flat_map (attempt_events Blocking m p b) ds'
            ++ [EvRequest Blocking m p b]), d.
    unfold _request_with_retry, request_with_retry_on.
    rewrite <- Hrs, Nat2Z.id, Hrun, flat_map_app.
    cbn [flat_map attempt_events app]. rewrite <- !app_assoc. cbn [app].
    split; [reflexivity|].
    destruct (count_attempt_events (attempt_events Blocking m p b) ds')
      as [Hcs Hcr]; [split; reflexivity|].
    rewrite !count_sleeps_app, !count_requests_app, Hcs, Hcr.
    rewrite <- Hlen, length_app. cbn. split; lia.
  - exists (flat_map (fun i => attempt_events Blocking m p b
                                 (backoff_secs self (Z.of_nat i)))
                     (seq 0 (List.length es))).
    unfold _request_with_retry, request_with_retry_on.
    rewrite <- Hes, Nat2Z.id, length_app. cbn [List.length].
    rewrite Nat.add_1_r.
    pose proof (retry_loop_all_network Blocking self m p b es 0%nat None
                  tr rest el) as Hrun.
    change (Z.of_nat 0) with 0 in Hrun.
    rewrite Hrun
      by (rewrite length_app in Hes; cbn [List.length] in Hes; lia).
    split; [reflexivity|].
    destruct (count_attempt_events
                (fun i => attempt_events Blocking m p b
                            (backoff_secs self (Z.of_nat i)))
                (seq 0 (List.length es)))
      as [Hcs Hcr]; [split; reflexivity|].
    rewrite !count_sleeps_app, !count_requests_app, Hcs, Hcr, length_seq.
    cbn. split; lia.
Qed.

(* =================================================================== *)
(** ** What a transport call adds to the trace                           *)
(* =================================================================== *)

(** One iteration either ends the call, having made one request, or goes
    on to the next attempt after one request and at most one sleep.  It
    neither ends in a [RateLimitError] nor keeps one as the last error. *)
Lemma retry_loop_step s self m p b k attempt le w :
  (exists res,
      retry_loop s self m p b (S k) attempt le w
      = (res, mkWorld (tl (script w)) (trace w ++ [EvRequest s m p b]))
      /\ forall e, res = Raise e ->
                   forall msg hint r0, e <> RateLimitError msg hint r0)
  \/ (exists le' sl,
         (sl = [] \/ exists d, sl = [EvSleep s d])
         /\ (forall msg hint r0, le' <> RateLimitError msg hint r0)
         /\ retry_loop s self m p b (S k) attempt le w
            = retry_loop s self m p b k (attempt + 1) (Some le')
                (mkWorld (tl (script w))
                         (trace w ++ EvRequest s m p b :: sl))).
Proof.
  destruct (script w) as [|[r|ne] rest] eqn:Hs; cbn [tl].
  - left. exists (Raise MockExhausted). split.
    + cbn [retry_loop].
      unfold bind, try_httpx, attempt_body, bind, client_request, log.
      rewrite Hs. reflexivity.
    + intros e H. injection H as <-. discriminate.
  - destruct (Z.ltb_spec (resp_status_code r) 400) as [Hlt|Hge].
    { left. exists (Ok r). split; [|discriminate].
      apply retry_step_success; assumption. }
    destruct (Z.eqb_spec (resp_status_code r) 429) as [E429|N429];
      [|destruct (Z.ltb_spec (resp_status_code r) 500) as [H5|H5]].
    2:{ left. exists (Raise (typed_error r)). split.
        - apply retry_step_client_error; [assumption|].
          split; [lia|assumption].
        - intros e H. injection H as <-. unfold typed_error.
          destruct (resp_status_code r =? 401); [discriminate|].
          destruct (resp_status_code r =? 402); [discriminate|].
          destruct (resp_status_code r =? 422); discriminate. }
    all: assert (Hret : retryable (resp_status_code r))
      by (unfold retryable; lia).
    all: destruct (retry_sleep_secs self attempt r) as [d|ex] eqn:Hsecs.
    1,3: right; exists (api_error_of r), [EvSleep s d];
         split; [right; eauto|];
         split; [intros; unfold api_error_of; discriminate|];
         apply retry_step_retryable; assumption.
    all: left; exists (Raise ex);
         split; [apply (retry_step_retryable_raises _ _ _ _ _ _ _ _ _ r);
                 assumption|];
         intros e H; injection H as <-;
         destruct (retry_sleep_secs_raises self attempt r ex Hsecs)
           as [-> | ->]; discriminate.
  - rewrite (retry_step_network_gen _ _ _ _ _ _ _ _ _ ne rest Hs).
    destruct (attempt <? max_retries self - 1).
    + destruct (backoff self attempt) as [d|ex] eqn:Hb.
      * right. exists (AlterLabError ("Network error: " ++ ne)), [EvSleep s d].
        split; [right; eauto|]. split; [intros; discriminate|reflexivity].
      * left. exists (Raise ex). split; [reflexivity|].
        intros e H. injection H as <-. unfold backoff in Hb.
        destruct (1024 <=? attempt); [|discriminate Hb].
        injection Hb as <-. discriminate.
    + right. exists (AlterLabError ("Network error: " ++ ne)), [].
      split; [left; reflexivity|]. split; [intros; discriminate|reflexivity].
Qed.

Lemma retry_loop_trace s self m p b (k : nat) :
  forall attempt le w res w',
    retry_loop s self m p b k attempt le w = (res, w') ->
    exists evs,
      trace w' = trace w ++ evs /\ Forall (transport_event s m p b) evs.
Proof.
  induction k as [|k IH]; intros attempt le w res w' Hrun.
  - rewrite retry_loop_exhausted in Hrun. injection Hrun as _ <-.
    exists []. rewrite app_nil_r. split; [reflexivity|constructor].
  - assert (Hreq : transport_event s m p b (EvRequest s m p b))
      by (right; reflexivity).
    destruct (retry_loop_step s self m p b k attempt le w)
      as [[res0 [Hend _]] | [le' [sl [Hsl [_ Hnext]]]]].
    + rewrite Hend in Hrun. injection Hrun as _ <-.
      exists [EvRequest s m p b]. split; [reflexivity|auto].
    + rewrite Hnext in Hrun. apply IH in Hrun.
      destruct Hrun as [evs [Htr Hall]]. cbn [trace] in Htr.
      exists ((EvRequest s m p b :: sl) ++ evs).
      rewrite Htr, <- app_assoc. split; [reflexivity|].
      apply Forall_app. split; [|exact Hall].
      constructor; [exact Hreq|].
      destruct Hsl as [-> | [d ->]]; [constructor|].
      constructor; [left; reflexivity|constructor].
Qed.

(** No run of the transport ends in a [RateLimitError]: the branch of
    [_handle_error_response] that builds one is never reached from it. *)
Lemma retry_loop_never_rate_limit s self m p b (k : nat) :
  forall attempt le w e w',
    (forall msg hint r0, le <> Some (RateLimitError msg hint r0)) ->
    retry_loop s self m p b k attempt le w = (Raise e, w') ->
    forall msg hint r0, e <> RateLimitError msg hint r0.
Proof.
  induction k as [|k IH]; intros attempt le w e w' Hle Hrun msg hint r0.
  - rewrite retry_loop_exhausted in Hrun. injection Hrun as <- _.
    destruct le as [e0|]; [|discriminate].
    intros E. apply (Hle msg hint r0). congruence.
  - destruct (retry_loop_step s self m p b k attempt le w)
      as [[res0 [Hend Hres]] | [le' [sl [_ [Hle' Hnext]]]]].
    + rewrite Hend in Hrun. injection Hrun as Hr _.
      exact (Hres e Hr msg hint r0).
    + rewrite Hnext in Hrun. eapply IH; [|exact Hrun].
      intros msg' hint' r' E. injection E as E. exact (Hle' _ _ _ E).
Qed.

Lemma request_with_retry_never_rate_limit s self m p b w e w' :
  request_with_retry_on s self m p b w = (Raise e, w') ->
  forall msg hint r0, e <> RateLimitError msg hint r0.
Proof.
  apply retry_loop_never_rate_limit. intros; discriminate.
Qed.

Lemma request_with_retry_trace s self m p b w res w' :
  request_with_retry_on s self m p b w = (res, w') ->
  exists evs,
    trace w' = trace w ++ evs /\ Forall (transport_event s m p b) evs.
Proof. apply retry_loop_trace. Qed.

(* =================================================================== *)
(** ** Job poller                                                        *)
(* =================================================================== *)

Lemma get_job_status_run s self job_id w r w' d :
  request_with_retry_on s self "GET" ("/api/v1/jobs/" ++ fstr job_id) None w
  = (Ok r, w') ->
  resp_json r = Some (PDict d) ->
  get_job_status_on s self job_id w
  = (match embedded_result d with
     | Ok res =>
         Ok (mkJobStatus job_id (dict_get_default d "status" (PStr "pending"))
                         res (dict_get_default d "error" PNone))
     | Raise e => Raise e
     end, w').
Proof.
  intros Hrun Hjson. unfold get_job_status_on, embedded_result.
  unfold bind at 1. rewrite Hrun.
  unfold bind, lift, response_json, ret. rewrite Hjson. cbn [py_get].
  destruct (py_eq_str (dict_get_default d "status" PNone) "succeeded"
            || py_eq_str (dict_get_default d "status" PNone) "completed");
    cbn [andb]; [|reflexivity].
  destruct (truthy (dict_get_default d "result" PNone)); [|reflexivity].
  unfold rbind.
  destruct (py_getitem (PDict d) "result") as [raw|e]; [|reflexivity].
  destruct (_parse_scrape_response raw); reflexivity.
Qed.

(** One iteration of [wait_for_job] whose status is neither ["succeeded"]
    nor ["failed"]: sleep [poll_interval], then go round again. *)
Lemma wait_loop_continue s self job_id poll_interval poll_timeout
      start now ticks w js w' :
  (now - start <= poll_timeout)%Q ->
  get_job_status_on s self job_id w = (Ok js, w') ->
  py_eq_str (js_status js) "succeeded" = false ->
  py_eq_str (js_status js) "failed" = false ->
  wait_loop s self job_id poll_interval poll_timeout start (now :: ticks) w
  = wait_loop s self job_id poll_interval poll_timeout start ticks
              (log (EvSleep s poll_interval) w').
Proof.
  intros Hin Hjs Hs Hf. cbn [wait_loop]. unfold Qgt_bool.
  apply Qle_bool_iff in Hin. rewrite Hin. cbn [negb].
  unfold bind at 1. rewrite Hjs, Hs, Hf. reflexivity.
Qed.

Lemma py_eq_str_false v k :
  (forall st, v = PStr st -> st <> k) -> py_eq_str v k = false.
Proof.
  intros H. destruct v; try reflexivity. cbn [py_eq_str].
  destruct (String.eqb_spec s k) as [E|]; [|reflexivity].
  exfalso. exact (H s eq_refl E).
Qed.

(** C5 (as amended). For a job-status payload whose status field is
    absent, [get_job_status] yields the status ["pending"]; when the field
    holds a string other than the four state names, it yields that string
    unchanged, not ["pending"].  In both cases [wait_for_job] treats the
    job as not finished: it sleeps [poll_interval] and polls again.  (For
    the string ["completed"] an embedded result is parsed first, and has
    to parse.) *)
Theorem C5_unknown_status_keeps_polling
  (s : surface) (self : AlterLab) (job_id : pyval)
  (poll_interval poll_timeout start now : Q) (ticks : list Q)
  (w w' : world) (r : response) (d : pydict) :
  request_with_retry_on s self "GET" ("/api/v1/jobs/" ++ fstr job_id) None w
  = (Ok r, w') ->
  resp_json r = Some (PDict d) ->
  unknown_status d ->
  completed_result_parses d ->
  (now - start <= poll_timeout)%Q ->
  exists js,
    get_job_status_on s self job_id w = (Ok js, w')
    /\ js_status js = dict_get_default d "status" (PStr "pending")
    /\ (dict_get d "status" = None -> js_status js = PStr "pending")
    /\ (forall st, dict_get d "status" = Some (PStr st) ->
                   js_status js = PStr st)
    /\ wait_loop s self job_id poll_interval poll_timeout start
                 (now :: ticks) w
       = wait_loop s self job_id poll_interval poll_timeout start ticks
                   (log (EvSleep s poll_interval) w').
Proof.
  intros Hrun Hjson Hunk Hparse Hin.
  pose proof (get_job_status_run s self job_id w r w' d Hrun Hjson) as Hjs.
  assert (Hres : exists res, embedded_result d = Ok res).
  { unfold embedded_result, dict_get_default.
    destruct Hunk as [Hnone | [st [Hst [_ [_ [Hns _]]]]]].
    - rewrite Hnone. cbn. eauto.
    - rewrite Hst. cbn [py_eq_str].
      destruct (String.eqb_spec st "succeeded") as [E|_]; [contradiction|].
      destruct (String.eqb_spec st "completed") as [E|_]; cbn [orb andb];
        [|eauto].
      subst st. specialize (Hparse Hst). cbn [py_getitem].
      destruct (dict_get d "result") as [raw|] eqn:Hraw; [|cbn; eauto].
      destruct (truthy raw) eqn:Htr; [|eauto].
      destruct (Hparse raw eq_refl Htr) as [parsed Hp].
      unfold rbind. rewrite Hp. eauto. }
  destruct Hres as [res Hres]. rewrite Hres in Hjs.
  eexists. split; [exact Hjs|]. cbn [js_status].
  split; [reflexivity|].
  split; [intros Hnone; unfold dict_get_default; rewrite Hnone; reflexivity|].
  split; [intros st Hst; unfold dict_get_default; rewrite Hst; reflexivity|].
  apply (wait_loop_continue _ _ _ _ _ _ _ _ _ _ _ Hin Hjs); cbn [js_status];
    apply py_eq_str_false; intros st Hv; unfold dict_get_default in Hv;
    destruct Hunk as [Hnone | [st' [Hst [_ [_ [Hns Hnf]]]]]];
    try (rewrite Hnone in Hv; injection Hv as <-; discriminate);
    rewrite Hst in Hv; injection Hv as <-; assumption.
Qed.

(** C6. The timeout is checked at the top of every iteration of the
    poller, blocking or suspending, before the status request of that
    iteration: when the elapsed time read there exceeds [poll_timeout],
    the call raises the timeout error naming the job id and the
    configured timeout, and the world is left as it was: no request is
    issued, no sleep is taken. *)
Theorem C6_timeout_checked_before_poll
  (s : surface) (self : AlterLab) (job_id : pyval)
  (poll_interval poll_timeout start now : Q) (ticks : list Q) (w : world) :
  (poll_timeout < now - start)%Q ->
  wait_loop s self job_id poll_interval poll_timeout start (now :: ticks) w
  = (Raise (TimeoutError job_id poll_timeout), w)
  /\ wait_for_job_on s self (start :: now :: ticks) job_id
                     poll_interval poll_timeout w
     = (Raise (TimeoutError job_id poll_timeout), w).
Proof.
  intros Hlate.
  assert (Hgt : Qgt_bool (now - start) poll_timeout = true).
  { unfold Qgt_bool. destruct (Qle_bool (now - start) poll_timeout) eqn:E;
      [|reflexivity].
    apply Qle_bool_iff in E. exfalso. exact (Qlt_not_le _ _ Hlate E). }
  split; cbn [wait_for_job_on wait_loop]; rewrite Hgt; reflexivity.
Qed.

(** C7 (as amended). Whenever the poller observes a job in the succeeded
    state with no embedded result, it raises a scrape-failure error with
    status 200 and message "Job completed but no result returned"
    (capital J), and so returns no [ScrapeResult] for that job. *)
Theorem C7_succeeded_without_result_raises
  (s : surface) (self : AlterLab) (job_id : pyval)
  (poll_interval poll_timeout start now : Q) (ticks : list Q)
  (w w' : world) (js : JobStatus) :
  (now - start <= poll_timeout)%Q ->
  get_job_status_on s self job_id w = (Ok js, w') ->
  js_status js = PStr "succeeded" ->
  js_result js = None ->
  wait_loop s self job_id poll_interval poll_timeout start (now :: ticks) w
  = (Raise (ScrapeError 200 (PStr "Job completed but no result returned") None),
     w').
Proof.
  intros Hin Hjs Hst Hres. cbn [wait_loop]. unfold Qgt_bool.
  apply Qle_bool_iff in Hin. rewrite Hin. cbn [negb].
  unfold bind. rewrite Hjs, Hst, Hres. reflexivity.
Qed.

(* =================================================================== *)
(** ** Facade                                                            *)
(* =================================================================== *)

(** C4. When [scrape] is called with [sync=False] and the server answers
    202 with a [job_id], the call returns the placeholder result: the job
    id (as [content] and as [metadata]) next to the url of the call and
    the status 202, every other field at its default and no billing.
    The events of the call are those of the one transport call, which
    are sleeps and [POST /api/v1/scrape] requests: no poll request. *)
Theorem C4_async_submission_returns_job_id
  (s : surface) (self : AlterLab) (clock : list Q) (a : scrape_args)
  (w w' : world) (r : response) (d : pydict) (job_id : pyval) :
  a_sync a = false ->
  request_with_retry_on s self "POST" "/api/v1/scrape"
    (Some (PDict (_build_scrape_payload self a))) w = (Ok r, w') ->
  resp_status_code r = 202 ->
  resp_json r = Some (PDict d) ->
  dict_get d "job_id" = Some job_id ->
  scrape_on s self clock a w
  = (Ok {| sr_url := PStr (a_url a);
           sr_status_code := PInt 202;
           sr_content := PDict [("job_id", job_id)];
           sr_title := PNone;
           sr_author := PNone;
           sr_published_at := PNone;
           sr_metadata := PDict [("job_id", job_id)];
           sr_headers := PDict [];
           sr_cached := PBool false;
           sr_cached_at := PNone;
           sr_expires_at := PNone;
           sr_response_time_ms := PInt 0;
           sr_size_bytes := PInt 0;
           sr_raw_html := PNone;
           sr_screenshot_url := PNone;
           sr_pdf_url := PNone;
           sr_ocr_results := PNone;
           sr_proxy_used := PNone;
           sr_filtered_content := PNone;
           sr_billing := None;
           sr_extraction_method := PStr "algorithmic";
           sr_method_details := PNone |}, w')
  /\ exists evs,
      trace w' = trace w ++ evs
      /\ Forall (fun e => is_poll_request e = false) evs.
Proof.
  intros Hsync Hrun Hst Hjson Hjob. split.
  - unfold scrape_on. cbv zeta. unfold bind at 1. rewrite Hrun.
    unfold bind, lift, response_json, ret. rewrite Hjson, Hst, Hsync.
    cbn [Z.eqb Pos.eqb py_contains py_getitem negb]. rewrite Hjob.
    reflexivity.
  - destruct (request_with_retry_trace _ _ _ _ _ _ _ _ Hrun)
      as [evs [Htr Hall]].
    exists evs. split; [exact Htr|].
    eapply Forall_impl; [|exact Hall].
    intros e [Hsl | ->]; [destruct e; [discriminate|reflexivity]|reflexivity].
Qed.

(* =================================================================== *)
(** ** Request builder                                                   *)
(* =================================================================== *)

Lemma dict_get_set d k v k' :
  dict_get (dict_set d k v) k'
  = if (k =? k')%string then Some v else dict_get d k'.
Proof.
  induction d as [|[k0 v0] d IH]; cbn [dict_set dict_get].
  - destruct (k =? k')%string; reflexivity.
  - destruct (String.eqb_spec k0 k) as [E|N]; cbn [dict_get].
    + subst k0. destruct (k =? k')%string; reflexivity.
    + rewrite IH. destruct (String.eqb_spec k0 k') as [E'|N'];
        [|reflexivity].
      subst k0. destruct (String.eqb_spec k k') as [E''|_];
        [congruence|reflexivity].
Qed.

Lemma dict_get_set_if c k v d k' :
  dict_get (set_if c k v d) k'
  = if (k =? k')%string && c then Some v else dict_get d k'.
Proof.
  unfold set_if. destruct c; [rewrite dict_get_set|];
    destruct (k =? k')%string; reflexivity.
Qed.

Lemma dict_get_set_opt k o d k' :
  dict_get (set_opt k o d) k'
  = if (k =? k')%string && is_some o then o else dict_get d k'.
Proof.
  unfold set_opt. destruct o; [rewrite dict_get_set|];
    destruct (k =? k')%string; reflexivity.
Qed.

Lemma no_null_dict_set d k v :
  no_null_values d -> v <> PNone -> no_null_values (dict_set d k v).
Proof.
  unfold no_null_values. intros Hd Hv.
  induction d as [|[k0 v0] d IH]; cbn [dict_set].
  - constructor; [exact Hv|constructor].
  - inversion Hd as [|? ? H0 Hd']; subst.
    destruct (k0 =? k)%string; constructor; auto.
Qed.

Lemma no_null_set_if c k v d :
  no_null_values d -> (c = true -> v <> PNone) ->
  no_null_values (set_if c k v d).
Proof.
  intros Hd Hv. unfold set_if. destruct c; [|exact Hd].
  apply no_null_dict_set; auto.
Qed.

Lemma no_null_set_opt k o d :
  no_null_values d -> (forall v, o = Some v -> v <> PNone) ->
  no_null_values (set_opt k o d).
Proof.
  intros Hd Hv. unfold set_opt. destruct o; [|exact Hd].
  apply no_null_dict_set; auto.
Qed.

Lemma opt_str_truthy_not_null o :
  opt_str_truthy o = true -> opt_str o <> PNone.
Proof. destruct o; cbn; [discriminate|discriminate]. Qed.

Lemma CostControls_to_dict_no_null cc :
  no_null_values (CostControls_to_dict cc).
Proof.
  unfold CostControls_to_dict. cbv zeta.
  apply no_null_set_if; [|apply opt_str_truthy_not_null].
  repeat constructor; discriminate.
Qed.

(** C3 (as amended). For every combination of scrape options, no
    top-level key of the built payload holds null, and a conditional
    field whose option is not there is omitted entirely.  The cache TTL
    and the scroll-enable flag are sent exactly when they are given (not
    [None]), with the value given, a TTL of 0 and a flag [False]
    included; the advanced-options and cost-controls blocks exactly when
    given; the formats list and the extraction schema exactly when given
    and not empty; the extraction prompt, the extraction profile and the
    wait-for selector exactly when given and not the empty string; the
    screenshot flag exactly when true.  An included cost-controls block
    holds no null either.  An included advanced-options block always
    carries its twelve keys, of which only [proxy_integration_id] and
    [proxy_country] can hold null, and do when they are not set. *)
Theorem C3_payload_omits_absent_fields (self : AlterLab) (a : scrape_args) :
  let payload := _build_scrape_payload self a in
  no_null_values payload
  /\ dict_get payload "cache_ttl" = option_map PInt (a_cache_ttl a)
  /\ dict_get payload "advanced"
     = option_map (fun adv => PDict (AdvancedOptions_to_dict adv))
                  (a_advanced a)
  /\ dict_get payload "cost_controls"
     = option_map (fun cc => PDict (CostControls_to_dict cc))
                  (a_cost_controls a)
  /\ dict_get payload "formats"
     = match a_formats a with
       | Some (f :: fs) => Some (PList (map PStr (f :: fs)))
       | _ => None
       end
  /\ dict_get payload "extraction_schema"
     = match a_extraction_schema a with
       | Some (kv :: d) => Some (PDict (kv :: d))
       | _ => None
       end
  /\ dict_get payload "extraction_prompt"
     = match a_extraction_prompt a with
       | Some p => if (p =? "")%string then None else Some (PStr p)
       | None => None
       end
  /\ dict_get payload "extraction_profile"
     = match a_extraction_profile a with
       | Some p => if (p =? "")%string then None else Some (PStr p)
       | None => None
       end
  /\ dict_get payload "wait_for"
     = match a_wait_for a with
       | Some p => if (p =? "")%string then None else Some (PStr p)
       | None => None
       end
  /\ dict_get payload "screenshot"
     = (if a_screenshot a then Some (PBool true) else None)
  /\ dict_get payload "enable_scroll" = option_map PBool (a_enable_scroll a)
  /\ (forall cc, a_cost_controls a = Some cc ->
                 no_null_values (CostControls_to_dict cc))
  /\ (forall adv, a_advanced a = Some adv ->
        List.length (AdvancedOptions_to_dict adv) = 12%nat
        /\ dict_get (AdvancedOptions_to_dict adv) "proxy_integration_id"
           = Some (opt_str (proxy_integration_id adv))
        /\ dict_get (AdvancedOptions_to_dict adv) "proxy_country"
           = Some (opt_str (proxy_country adv))
        /\ forall k v, In (k, v) (AdvancedOptions_to_dict adv) ->
                       k <> "proxy_integration_id" ->
                       k <> "proxy_country" -> v <> PNone).
Proof.
  cbv zeta.
  split.
  { unfold _build_scrape_payload. cbv zeta.
    repeat first
      [ apply no_null_set_if;
        [ | first [ apply opt_str_truthy_not_null | discriminate ] ]
      | apply no_null_set_opt;
        [ | let v := fresh "v" in let H := fresh "H" in intros v H ] ].
    - repeat constructor; discriminate.
    - destruct (a_cache_ttl a); inversion H; discriminate.
    - destruct (a_advanced a); inversion H; discriminate.
    - destruct (a_cost_controls a); inversion H; discriminate.
    - destruct (a_formats a) as [[|? ?]|]; inversion H; discriminate.
    - destruct (a_extraction_schema a) as [[|? ?]|]; inversion H; discriminate.
    - destruct (a_enable_scroll a); inversion H; discriminate. }
  unfold _build_scrape_payload. cbv zeta.
  repeat first [rewrite dict_get_set_if | rewrite dict_get_set_opt].
  cbn [String.eqb Ascii.eqb Bool.eqb andb dict_get].
  repeat split.
  - destruct (a_cache_ttl a); reflexivity.
  - destruct (a_advanced a); reflexivity.
  - destruct (a_cost_controls a); reflexivity.
  - destruct (a_formats a) as [[|? ?]|]; reflexivity.
  - destruct (a_extraction_schema a) as [[|? ?]|]; reflexivity.
  - destruct (a_extraction_prompt a) as [q|]; [|reflexivity].
    cbn [opt_str_truthy opt_str]. destruct (q =? "")%string; reflexivity.
  - destruct (a_extraction_profile a) as [q|]; [|reflexivity].
    cbn [opt_str_truthy opt_str]. destruct (q =? "")%string; reflexivity.
  - destruct (a_wait_for a) as [q|]; [|reflexivity].
    cbn [opt_str_truthy opt_str]. destruct (q =? "")%string; reflexivity.
  - destruct (a_screenshot a); reflexivity.
  - destruct (a_enable_scroll a); reflexivity.
  - intros cc _. apply CostControls_to_dict_no_null.
  - intros k v Hin Hk1 Hk2. unfold AdvancedOptions_to_dict in Hin.
    cbn [In] in Hin.
    repeat (destruct Hin as [Hin|Hin];
            [injection Hin as <- <-;
             first [discriminate | congruence] |]).
    contradiction.
Qed.

(* =================================================================== *)
(** ** Response parser                                                   *)
(* =================================================================== *)

Lemma rmap_parse_escalation (eds : list pydict) :
  rmap parse_escalation (map PDict eds) = Ok (map escalation_of eds).
Proof.
  induction eds as [|ed eds IH]; [reflexivity|].
  cbn [map rmap]. rewrite IH. reflexivity.
Qed.

(** C9 (as amended). The response parser maps every JSON object whose
    [billing] field, when present, is an object, and whose [escalations]
    field, when present, is a list of objects, to a [ScrapeResult]
    without error, each missing field taking its documented default
    (status 200, empty content, empty metadata and header maps, zero
    counters, "algorithmic" extraction method, billing tier "1"); the
    escalations are mapped element-wise in source order, a missing tier
    defaulting to "1" and a missing result to "success".  In particular
    the object with no field at all parses to the defaults. *)
Theorem C9_parse_applies_defaults (d b : pydict) (eds : list pydict) :
  dict_get_default d "billing" (PDict []) = PDict b ->
  dict_get_default b "escalations" (PList []) = PList (map PDict eds) ->
  _parse_scrape_response (PDict d)
  = Ok {| sr_url := dict_get_default d "url" (PStr "");
          sr_status_code := dict_get_default d "status_code" (PInt 200);
          sr_content := dict_get_default d "content" (PStr "");
          sr_title := dict_get_default d "title" PNone;
          sr_author := dict_get_default d "author" PNone;
          sr_published_at := dict_get_default d "published_at" PNone;
          sr_metadata := dict_get_default d "metadata" (PDict []);
          sr_headers := dict_get_default d "headers" (PDict []);
          sr_cached := dict_get_default d "cached" (PBool false);
          sr_cached_at := dict_get_default d "cached_at" PNone;
          sr_expires_at := dict_get_default d "expires_at" PNone;
          sr_response_time_ms := dict_get_default d "response_time_ms" (PInt 0);
          sr_size_bytes := dict_get_default d "size_bytes" (PInt 0);
          sr_raw_html := dict_get_default d "raw_html" PNone;
          sr_screenshot_url := dict_get_default d "screenshot_url" PNone;
          sr_pdf_url := dict_get_default d "pdf_url" PNone;
          sr_ocr_results := dict_get_default d "ocr_results" PNone;
          sr_proxy_used := dict_get_default d "proxy_used" PNone;
          sr_filtered_content := dict_get_default d "filtered_content" PNone;
          sr_billing :=
            Some {| total_credits := dict_get_default b "total_credits" (PInt 0);
                    tier_used := dict_get_default b "tier_used" (PStr "1");
                    escalations := map escalation_of eds;
                    savings := dict_get_default b "savings" (PInt 0);
                    optimization_suggestion :=
                      dict_get_default b "optimization_suggestion" PNone;
                    byop_applied :=
                      dict_get_default b "byop_applied" (PBool false);
                    byop_discount_percent :=
                      dict_get_default b "byop_discount_percent" PNone;
                    original_cost_microcents :=
                      dict_get_default b "original_cost_microcents" PNone;
                    final_cost_microcents :=
                      dict_get_default b "final_cost_microcents" PNone |};
          sr_extraction_method :=
            dict_get_default d "extraction_method" (PStr "algorithmic");
          sr_method_details := dict_get_default d "method_details" PNone |}
  /\ (forall ed, escalation_of ed
                 = {| te_tier := dict_get_default ed "tier" (PStr "1");
                      te_result := dict_get_default ed "result" (PStr "success");
                      te_credits := dict_get_default ed "credits" (PInt 0);
                      te_duration_ms := dict_get_default ed "duration_ms" PNone;
                      te_error := dict_get_default ed "error" PNone |})
  /\ _parse_scrape_response (PDict [])
     = Ok {| sr_url := PStr "";
             sr_status_code := PInt 200;
             sr_content := PStr "";
             sr_title := PNone;
             sr_author := PNone;
             sr_published_at := PNone;
             sr_metadata := PDict [];
             sr_headers := PDict [];
             sr_cached := PBool false;
             sr_cached_at := PNone;
             sr_expires_at := PNone;
             sr_response_time_ms := PInt 0;
             sr_size_bytes := PInt 0;
             sr_raw_html := PNone;
             sr_screenshot_url := PNone;
             sr_pdf_url := PNone;
             sr_ocr_results := PNone;
             sr_proxy_used := PNone;
             sr_filtered_content := PNone;
             sr_billing :=
               Some {| total_credits := PInt 0;
                       tier_used := PStr "1";
                       escalations := [];
                       savings := PInt 0;
                       optimization_suggestion := PNone;
                       byop_applied := PBool false;
                       byop_discount_percent := PNone;
                       original_cost_microcents := PNone;
                       final_cost_microcents := PNone |};
             sr_extraction_method := PStr "algorithmic";
             sr_method_details := PNone |}.
Proof.
  intros Hb He. split; [|split; [reflexivity|reflexivity]].
  unfold _parse_scrape_response. cbn [py_get rbind]. rewrite Hb.
  cbn [py_get rbind]. rewrite He. cbn [py_iter rbind].
  rewrite rmap_parse_escalation. reflexivity.
Qed.

(* =================================================================== *)
(** ** More on the transport                                             *)
(* =================================================================== *)

Lemma retry_loop_bounded s self m p b (k : nat) :
  forall attempt le w res w',
    retry_loop s self m p b k attempt le w = (res, w') ->
    exists evs,
      trace w' = trace w ++ evs
      /\ (count_requests evs <= k)%nat
      /\ (count_sleeps evs <= count_requests evs)%nat.
Proof.
  induction k as [|k IH]; intros attempt le w res w' Hrun.
  - rewrite retry_loop_exhausted in Hrun. injection Hrun as _ <-.
    exists []. rewrite app_nil_r. repeat split; cbn; lia.
  - destruct (retry_loop_step s self m p b k attempt le w)
      as [[res0 [Hend _]] | [le' [sl [Hsl [_ Hnext]]]]].
    + rewrite Hend in Hrun. injection Hrun as _ <-.
      exists [EvRequest s m p b]. repeat split; cbn; lia.
    + rewrite Hnext in Hrun. apply IH in Hrun.
      destruct Hrun as [evs [Htr [Hreq Hsleep]]]. cbn [trace] in Htr.
      exists ((EvRequest s m p b :: sl) ++ evs).
      rewrite Htr, <- app_assoc. split; [reflexivity|].
      rewrite count_requests_app, count_sleeps_app.
      destruct Hsl as [-> | [d ->]]; cbn; split; lia.
Qed.

(** X3. However the call ends, the transport has made at most [max_retries]
    requests, and never more sleeps than requests. *)
Theorem transport_attempts_bounded s self m p b w res w' :
  request_with_retry_on s self m p b w = (res, w') ->
  exists evs,
    trace w' = trace w ++ evs
    /\ (count_requests evs <= Z.to_nat (max_retries self))%nat
    /\ (count_sleeps evs <= count_requests evs)%nat.
Proof. apply retry_loop_bounded. Qed.

(** X2. With [max_retries] zero or negative the transport makes no request at
    all and raises the fallback error. *)
Theorem transport_without_attempts s self m p b w :
  max_retries self <= 0 ->
  request_with_retry_on s self m p b w
  = (Raise (AlterLabError "Request failed after retries"), w).
Proof.
  intros Hmax. unfold request_with_retry_on.
  replace (Z.to_nat (max_retries self)) with 0%nat by lia.
  apply retry_loop_exhausted.
Qed.

(** X4. A retryable response whose [Retry-After] header is not a number for
    [float] (an HTTP date, say) ends the call with the [ValueError] of
    [float]: one request has been made, no sleep, no retry. *)
Theorem transport_unreadable_retry_after s self m p b r h rest tr :
  0 < max_retries self ->
  retryable (resp_status_code r) ->
  resp_retry_after r = Some h ->
  h <> "" ->
  py_float h = None ->
  request_with_retry_on s self m p b (mkWorld (Resp r :: rest) tr)
  = (Raise PyValueError, mkWorld rest (tr ++ [EvRequest s m p b])).
Proof.
  intros Hmax Hst Hh Hne Hf. unfold request_with_retry_on.
  destruct (Z.to_nat (max_retries self)) as [|k] eqn:Hk; [lia|].
  cbn [retry_loop]. unfold bind at 1.
  unfold try_httpx, attempt_body, bind, client_request.
  cbn [script log trace].
  assert (H400 : (400 <=? resp_status_code r) = true)
    by (apply Z.leb_le; destruct Hst; lia).
  assert (Hgate : ((400 <=? resp_status_code r) && (resp_status_code r <? 500)
                   && negb (resp_status_code r =? 429)) = false).
  { rewrite H400. destruct Hst as [E|E].
    - rewrite E. reflexivity.
    - destruct (Z.ltb_spec (resp_status_code r) 500); [lia|reflexivity]. }
  rewrite Hgate, H400, Hh. unfold ret.
  destruct (String.eqb_spec h "") as [E|_]; [contradiction|].
  cbn [negb]. unfold lift, float_of. rewrite Hf. reflexivity.
Qed.

Lemma retry_loop_recovers s self m p b (fails : list net_outcome) :
  forall (k : nat) attempt le tr r rest,
    Forall transient fails ->
    attempt + Z.of_nat (List.length fails) < max_retries self ->
    attempt + Z.of_nat (List.length fails) <= 1024 ->
    resp_status_code r < 400 ->
    exists ds,
      delays_from self attempt fails ds
      /\ retry_loop s self m p b (List.length fails + S k) attempt le
                    (mkWorld (fails ++ Resp r :: rest) tr)
         = (Ok r,
            mkWorld rest
              (tr ++ flat_map (attempt_events s m p b) ds
                  ++ [EvRequest s m p b])).
Proof.
  induction fails as [|o fails IH];
    intros k attempt le tr r rest Hall Hlt Hbound Hok.
  - exists []. split; [exact I|]. cbn [List.length Nat.add app flat_map].
    apply retry_step_success; [reflexivity|exact Hok].
  - inversion Hall as [|? ? Ho Hall']; subst.
    cbn [List.length] in Hlt, Hbound. cbn [List.length Nat.add app].
    destruct o as [r0|ne].
    + destruct Ho as [Hret Hsl].
      destruct (sleep_defined_secs self attempt r0 ltac:(lia) Hsl)
        as [d Hsecs].
      destruct (IH k (attempt + 1) (Some (api_error_of r0))
                   (tr ++ [EvRequest s m p b; EvSleep s d]) r rest Hall'
                   ltac:(lia) ltac:(lia) Hok) as [ds [Hds Hrun]].
      exists (d :: ds). split; [split; assumption|].
      rewrite (retry_step_retryable s self m p b _ attempt le _ r0
                 (fails ++ Resp r :: rest) d);
        [ | reflexivity | exact Hret | exact Hsecs ].
      cbn [trace flat_map]. rewrite Hrun, <- app_assoc. reflexivity.
    + destruct (IH k (attempt + 1)
                   (Some (AlterLabError ("Network error: " ++ ne)))
                   (tr ++ [EvRequest s m p b;
                           EvSleep s (backoff_secs self attempt)]) r rest
                   Hall' ltac:(lia) ltac:(lia) Hok) as [ds [Hds Hrun]].
      exists (backoff_secs self attempt :: ds).
      split; [split; [reflexivity|assumption]|].
      rewrite (retry_step_network s self m p b _ attempt le _ ne
                 (fails ++ Resp r :: rest)); [|reflexivity|left; lia].
      destruct (Z.ltb_spec attempt (max_retries self - 1)); [|lia].
      cbn [trace flat_map]. rewrite Hrun, <- app_assoc. reflexivity.
Qed.

(** X1. After fewer than [max_retries] transient failures (network
    failures, 429 or 5xx responses), and at most 1024 of them, the
    transport returns the first response below 400 at once: one sleep
    after each failure, none after the success, and the rest of the script
    is not touched.  After a network failure the sleep is
    [retry_delay * 2**attempt].  (From attempt 1024 on that product raises
    [OverflowError], hence the bound.) *)
Theorem transport_recovers_from_transient_failures
  s self m p b (fails : list net_outcome) r rest tr :
  Forall transient fails ->
  Z.of_nat (List.length fails) < max_retries self ->
  Z.of_nat (List.length fails) <= 1024 ->
  resp_status_code r < 400 ->
  exists ds,
    delays_from self 0 fails ds
    /\ List.length ds = List.length fails
    /\ request_with_retry_on s self m p b
         (mkWorld (fails ++ Resp r :: rest) tr)
       = (Ok r,
          mkWorld rest
            (tr ++ flat_map (attempt_events s m p b) ds
                ++ [EvRequest s m p b])).
Proof.
  intros Hall Hlt Hbound Hok. unfold request_with_retry_on.
  assert (Hk : exists k, Z.to_nat (max_retries self)
                         = (List.length fails + S k)%nat).
  { exists (Z.to_nat (max_retries self) - List.length fails - 1)%nat. lia. }
  destruct Hk as [k Hk]. rewrite Hk.
  destruct (retry_loop_recovers s self m p b fails k 0 None tr r rest
              Hall ltac:(lia) ltac:(lia) Hok) as [ds [Hds Hrun]].
  exists ds. split; [exact Hds|]. split; [|exact Hrun].
  clear Hrun Hk Hlt Hbound Hall. revert Hds. generalize 0 as a. revert ds.
  induction fails as [|o fails IH]; intros [|d ds] a Hds;
    cbn [delays_from] in Hds; try contradiction; [reflexivity|].
  destruct Hds as [_ Hds]. cbn [List.length]. f_equal. eapply IH. exact Hds.
Qed.

(** X7. [_handle_error_response] returns normally exactly for a status below
    400.  For 429 it raises [RateLimitError] with the integer of the
    [Retry-After] header, or with no hint when the header is absent. *)
Theorem handle_error_response_raises_from_400 (r : response) :
  (_handle_error_response r = Ok tt <-> resp_status_code r < 400)
  /\ (forall h n, resp_status_code r = 429 ->
                  resp_retry_after r = Some h -> h <> "" ->
                  py_int h = Some n ->
                  _handle_error_response r
                  = Raise (RateLimitError (error_detail r) (Some n) (Some r)))
  /\ (resp_status_code r = 429 -> resp_retry_after r = None ->
      _handle_error_response r
      = Raise (RateLimitError (error_detail r) None (Some r))).
Proof.
  split; [|split].
  - unfold _handle_error_response.
    destruct (Z.eqb_spec (resp_status_code r) 401);
      [split; [discriminate|lia]|].
    destruct (Z.eqb_spec (resp_status_code r) 402);
      [split; [discriminate|lia]|].
    destruct (Z.eqb_spec (resp_status_code r) 422);
      [split; [discriminate|lia]|].
    destruct (Z.eqb_spec (resp_status_code r) 429).
    { split; [|lia]. destruct (resp_retry_after r) as [h|]; [|discriminate].
      destruct (negb (h =? "")%string); [|discriminate].
      unfold int_of, rbind. destruct (py_int h); discriminate. }
    destruct (Z.leb_spec 400 (resp_status_code r));
      split; (discriminate || lia || reflexivity).
  - intros h n Hst Hh Hne Hn. unfold _handle_error_response.
    rewrite Hst, Hh. cbn [Z.eqb Pos.eqb].
    destruct (String.eqb_spec h "") as [E|_]; [contradiction|].
    cbn [negb]. unfold int_of. rewrite Hn. reflexivity.
  - intros Hst Hh. unfold _handle_error_response.
    rewrite Hst, Hh. reflexivity.
Qed.

(** X5. On both surfaces, all a transport call does to the world is sleep and
    send the request it was given, with the same method, path and body on
    every attempt. *)
Theorem transport_sends_only_its_request self m p b w res w' :
  (_request_with_retry self m p b w = (res, w') ->
   exists evs,
     trace w' = trace w ++ evs
     /\ Forall (fun e => is_sleep e = true \/ e = EvRequest Blocking m p b) evs)
  /\ (_async_request_with_retry self m p b w = (res, w') ->
      exists evs,
        trace w' = trace w ++ evs
        /\ Forall (fun e => is_sleep e = true
                            \/ e = EvRequest Suspending m p b) evs).
Proof.
  split; intros Hrun.
  - exact (request_with_retry_trace Blocking self m p b w res w' Hrun).
  - exact (request_with_retry_trace Suspending self m p b w res w' Hrun).
Qed.

(** X6. On neither surface does the transport ever raise a [RateLimitError],
    whatever the script of responses: a call that ends in an error ends in
    another kind. *)
Theorem transport_never_raises_rate_limit self m p b w e w' :
  (_request_with_retry self m p b w = (Raise e, w') ->
   forall msg hint r0, e <> RateLimitError msg hint r0)
  /\ (_async_request_with_retry self m p b w = (Raise e, w') ->
      forall msg hint r0, e <> RateLimitError msg hint r0).
Proof.
  split; intros Hrun.
  - exact (request_with_retry_never_rate_limit Blocking self m p b w e w' Hrun).
  - exact (request_with_retry_never_rate_limit Suspending self m p b w e w'
             Hrun).
Qed.

(* =================================================================== *)
(** ** More on the job poller                                            *)
(* =================================================================== *)

Lemma transport_first_success s self m p b r rest tr :
  0 < max_retries self ->
  resp_status_code r < 400 ->
  request_with_retry_on s self m p b (mkWorld (Resp r :: rest) tr)
  = (Ok r, mkWorld rest (tr ++ [EvRequest s m p b])).
Proof.
  intros Hmax Hok. unfold request_with_retry_on.
  destruct (Z.to_nat (max_retries self)) as [|k] eqn:Hk; [lia|].
  apply retry_step_success; [reflexivity|exact Hok].
Qed.

Lemma stateless_lift {A : Type} (x : result A) : stateless (lift x).
Proof. intros w. reflexivity. Qed.

Lemma stateless_ret {A : Type} (a : A) : stateless (ret a).
Proof. intros w. reflexivity. Qed.

Lemma stateless_bind {A B : Type} (m : M A) (f : A -> M B) :
  stateless m -> (forall a, stateless (f a)) -> stateless (bind m f).
Proof.
  intros Hm Hf w. unfold bind. specialize (Hm w).
  destruct (m w) as [[a|e] w1]; cbn [snd] in *; subst w1; [apply Hf|reflexivity].
Qed.

(** [get_job_status] leaves the world as its transport call left it. *)
Lemma get_job_status_world s self job_id w res w' :
  get_job_status_on s self job_id w = (res, w') ->
  exists tres,
    request_with_retry_on s self "GET" (job_path job_id) None w = (tres, w').
Proof.
  unfold get_job_status_on, job_path. unfold bind at 1.
  destruct (request_with_retry_on s self "GET"
              ("/api/v1/jobs/" ++ fstr job_id) None w) as [[r|e] w1];
    [|intros H; injection H as _ <-; eauto].
  intros H. exists (Ok r). f_equal.
  match type of H with
  | ?m w1 = _ => assert (Hst : stateless m)
  end.
  { repeat first
      [ apply stateless_bind; [|intros ?]
      | apply stateless_lift
      | apply stateless_ret
      | match goal with
        | |- stateless (if ?c then _ else _) => destruct c
        end ]. }
  specialize (Hst w1). rewrite H in Hst. cbn [snd] in Hst. congruence.
Qed.

(** X8. A status "failed" ends the poll with a scrape failure of status 422
    and code ["JOB_FAILED"]; its message is the [error] of the payload, or
    "Job failed" when that is absent (or null, or empty). *)
Theorem wait_for_job_failed_raises
  s self job_id poll_interval poll_timeout start now ticks w w' r d :
  (now - start <= poll_timeout)%Q ->
  request_with_retry_on s self "GET" ("/api/v1/jobs/" ++ fstr job_id) None w
  = (Ok r, w') ->
  resp_json r = Some (PDict d) ->
  dict_get d "status" = Some (PStr "failed") ->
  wait_loop s self job_id poll_interval poll_timeout start (now :: ticks) w
  = (Raise (ScrapeError 422
              (if truthy (dict_get_default d "error" PNone)
               then dict_get_default d "error" PNone
               else PStr "Job failed")
              (Some "JOB_FAILED")), w').
Proof.
  intros Hin Hrun Hjson Hst.
  pose proof (get_job_status_run s self job_id w r w' d Hrun Hjson) as Hjs.
  unfold embedded_result, dict_get_default in Hjs. rewrite Hst in Hjs.
  cbn [py_eq_str String.eqb Ascii.eqb Bool.eqb orb andb] in Hjs.
  cbn [wait_loop]. unfold Qgt_bool.
  apply Qle_bool_iff in Hin. rewrite Hin. cbn [negb].
  unfold bind. rewrite Hjs. cbn [js_status js_error py_eq_str].
  reflexivity.
Qed.

Lemma wait_loop_returns_result
  s self job_id poll_interval poll_timeout start now ticks w w' r d raw parsed :
  (now - start <= poll_timeout)%Q ->
  request_with_retry_on s self "GET" ("/api/v1/jobs/" ++ fstr job_id) None w
  = (Ok r, w') ->
  resp_json r = Some (PDict d) ->
  dict_get d "status" = Some (PStr "succeeded") ->
  dict_get d "result" = Some raw ->
  truthy raw = true ->
  _parse_scrape_response raw = Ok parsed ->
  wait_loop s self job_id poll_interval poll_timeout start (now :: ticks) w
  = (Ok parsed, w').
Proof.
  intros Hin Hrun Hjson Hst Hraw Htr Hparse.
  pose proof (get_job_status_run s self job_id w r w' d Hrun Hjson) as Hjs.
  unfold embedded_result, dict_get_default in Hjs.
  rewrite Hst, Hraw in Hjs.
  cbn [py_eq_str String.eqb Ascii.eqb Bool.eqb orb andb py_getitem] in Hjs.
  rewrite Htr, Hraw in Hjs. unfold rbind in Hjs. rewrite Hparse in Hjs.
  cbn [wait_loop]. unfold Qgt_bool.
  apply Qle_bool_iff in Hin. rewrite Hin. cbn [negb].
  unfold bind. rewrite Hjs. reflexivity.
Qed.

(** X9. A status "succeeded" with an embedded result that parses ends the
    poll with that result, without a sleep after the status request; read
    in the first iteration, it makes [wait_for_job] return after a single
    request. *)
Theorem wait_for_job_returns_embedded_result
  s self job_id poll_interval poll_timeout start now ticks w w' r d raw parsed :
  (now - start <= poll_timeout)%Q ->
  request_with_retry_on s self "GET" ("/api/v1/jobs/" ++ fstr job_id) None w
  = (Ok r, w') ->
  resp_json r = Some (PDict d) ->
  dict_get d "status" = Some (PStr "succeeded") ->
  dict_get d "result" = Some raw ->
  truthy raw = true ->
  _parse_scrape_response raw = Ok parsed ->
  wait_loop s self job_id poll_interval poll_timeout start (now :: ticks) w
  = (Ok parsed, w')
  /\ wait_for_job_on s self (start :: now :: ticks) job_id
                     poll_interval poll_timeout w
     = (Ok parsed, w').
Proof.
  intros Hin Hrun Hjson Hst Hraw Htr Hparse.
  split; cbn [wait_for_job_on];
    apply (wait_loop_returns_result _ _ _ _ _ _ _ _ _ _ r d raw parsed);
    assumption.
Qed.

Lemma get_job_status_unfinished s self job_id r rest tr :
  0 < max_retries self ->
  polls_unfinished r ->
  exists js,
    get_job_status_on s self job_id (mkWorld (Resp r :: rest) tr)
    = (Ok js, mkWorld rest (tr ++ [EvRequest s "GET" (job_path job_id) None]))
    /\ py_eq_str (js_status js) "succeeded" = false
    /\ py_eq_str (js_status js) "failed" = false.
Proof.
  intros Hmax [Hok [d [Hjson [Hs [Hf Hc]]]]].
  pose proof (transport_first_success s self "GET" (job_path job_id) None
                r rest tr Hmax Hok) as Hrun.
  pose proof (get_job_status_run s self job_id _ r _ d Hrun Hjson) as Hjs.
  unfold embedded_result in Hjs. rewrite Hs, Hc in Hjs. cbn [orb andb] in Hjs.
  eexists. split; [exact Hjs|]. cbn [js_status].
  unfold dict_get_default in *.
  destruct (dict_get d "status"); [split; assumption|split; reflexivity].
Qed.

(** X10. The poller polls until the job has succeeded: after status responses
    that leave the job unfinished, each read in time, and then a response
    with status "succeeded" and a result that parses, [wait_for_job]
    returns that result.  It has made one status request per response and
    slept [poll_interval] after each unfinished one, and not after the
    last. *)
Theorem wait_for_job_polls_until_success
  s self job_id poll_interval poll_timeout start
  (rs : list response) (ticks : list Q) tlast later
  rlast dlast raw parsed rest tr :
  0 < max_retries self ->
  Forall polls_unfinished rs ->
  List.length ticks = List.length rs ->
  Forall (fun t => (t - start <= poll_timeout)%Q) ticks ->
  (tlast - start <= poll_timeout)%Q ->
  resp_status_code rlast < 400 ->
  resp_json rlast = Some (PDict dlast) ->
  dict_get dlast "status" = Some (PStr "succeeded") ->
  dict_get dlast "result" = Some raw ->
  truthy raw = true ->
  _parse_scrape_response raw = Ok parsed ->
  wait_for_job_on s self (start :: ticks ++ tlast :: later) job_id
                  poll_interval poll_timeout
                  (mkWorld (map Resp rs ++ Resp rlast :: rest) tr)
  = (Ok parsed,
     mkWorld rest
       (tr ++ flat_map (fun _ => [EvRequest s "GET" (job_path job_id) None;
                                  EvSleep s poll_interval]) rs
           ++ [EvRequest s "GET" (job_path job_id) None])).
Proof.
  intros Hmax Hrs Hlen Hticks Hlast Hok Hjson Hst Hraw Htr Hparse.
  cbn [wait_for_job_on].
  revert ticks tr Hlen Hticks.
  induction rs as [|r rs IH]; intros [|t ticks] tr Hlen Hticks;
    cbn [List.length] in Hlen; try discriminate.
  - cbn [map app flat_map].
    apply (wait_loop_returns_result
             _ _ _ _ _ _ _ _ _ _ rlast dlast raw parsed); try assumption.
    apply transport_first_success; assumption.
  - inversion Hrs as [|? ? Hr Hrs']; subst.
    inversion Hticks as [|? ? Ht Hticks']; subst.
    destruct (get_job_status_unfinished s self job_id r
                (map Resp rs ++ Resp rlast :: rest) tr Hmax Hr)
      as [js [Hjs [Hs Hf]]].
    cbn [map app flat_map].
    rewrite (wait_loop_continue _ _ _ _ _ _ _ _ _ _ _ Ht Hjs Hs Hf).
    unfold log. cbn [script trace].
    rewrite (IH Hrs' ticks _ ltac:(lia) Hticks').
    rewrite <- !app_assoc. reflexivity.
Qed.

Lemma wait_loop_events s self job_id poll_interval poll_timeout start
      (ticks : list Q) :
  forall w res w',
    wait_loop s self job_id poll_interval poll_timeout start ticks w
    = (res, w') ->
    exists evs,
      trace w' = trace w ++ evs
      /\ Forall (transport_event s "GET" (job_path job_id) None) evs.
Proof.
  induction ticks as [|now ticks IH]; intros w res w' Hrun.
  - injection Hrun as _ <-. exists []. rewrite app_nil_r.
    split; [reflexivity|constructor].
  - cbn [wait_loop] in Hrun.
    destruct (Qgt_bool (now - start) poll_timeout).
    { injection Hrun as _ <-. exists []. rewrite app_nil_r.
      split; [reflexivity|constructor]. }
    unfold bind at 1 in Hrun.
    destruct (get_job_status_on s self job_id w) as [[js|e] w1] eqn:Hjs.
    2:{ injection Hrun as _ <-.
        destruct (get_job_status_world _ _ _ _ _ _ Hjs) as [tres Ht].
        exact (request_with_retry_trace _ _ _ _ _ _ _ _ Ht). }
    destruct (get_job_status_world _ _ _ _ _ _ Hjs) as [tres Ht].
    destruct (request_with_retry_trace _ _ _ _ _ _ _ _ Ht)
      as [evs1 [Htr1 Hall1]].
    destruct (py_eq_str (js_status js) "succeeded").
    { destruct (js_result js); injection Hrun as _ <-; eauto. }
    destruct (py_eq_str (js_status js) "failed").
    { injection Hrun as _ <-; eauto. }
    unfold bind, sleep in Hrun. apply IH in Hrun.
    destruct Hrun as [evs2 [Htr2 Hall2]].
    unfold log in Htr2. cbn [trace] in Htr2.
    exists (evs1 ++ EvSleep s poll_interval :: evs2).
    split.
    + rewrite Htr2, Htr1, <- !app_assoc. reflexivity.
    + apply Forall_app. split; [exact Hall1|].
      constructor; [left; reflexivity|exact Hall2].
Qed.

(** X11. Whatever the outcome, all [wait_for_job] does to the world is sleep
    and send [GET /api/v1/jobs/<job id>] with no body. *)
Theorem wait_for_job_only_polls
  s self clock job_id poll_interval poll_timeout w res w' :
  wait_for_job_on s self clock job_id poll_interval poll_timeout w
  = (res, w') ->
  exists evs,
    trace w' = trace w ++ evs
    /\ Forall (fun e => is_sleep e = true
                        \/ e = EvRequest s "GET"
                                 ("/api/v1/jobs/" ++ fstr job_id) None) evs.
Proof.
  destruct clock as [|start ticks]; cbn [wait_for_job_on].
  - intros H. injection H as _ <-. exists []. rewrite app_nil_r.
    split; [reflexivity|constructor].
  - apply wait_loop_events.
Qed.

(* =================================================================== *)
(** ** More on the facade                                                *)
(* =================================================================== *)

(** X12. With [sync=True], a 202 response carrying a [job_id] makes [scrape]
    hand over to the poller: its outcome is that of [wait_for_job] for
    this job id, with the poll interval and timeout of the call, started
    where the transport call ended. *)
Theorem scrape_sync_polls_the_job
  s self clock a w w' r d job_id :
  a_sync a = true ->
  request_with_retry_on s self "POST" "/api/v1/scrape"
    (Some (PDict (_build_scrape_payload self a))) w = (Ok r, w') ->
  resp_status_code r = 202 ->
  resp_json r = Some (PDict d) ->
  dict_get d "job_id" = Some job_id ->
  scrape_on s self clock a w
  = wait_for_job_on s self clock job_id
                    (a_poll_interval a) (a_poll_timeout a) w'.
Proof.
  intros Hsync Hrun Hst Hjson Hjob.
  unfold scrape_on. cbv zeta. unfold bind at 1. rewrite Hrun.
  unfold bind, lift, response_json, ret. rewrite Hjson, Hst, Hsync.
  cbn [Z.eqb Pos.eqb py_contains py_getitem negb]. rewrite Hjob.
  cbn [is_some]. destruct (wait_for_job_on s self clock job_id
                             (a_poll_interval a) (a_poll_timeout a) w')
    as [[x|e] w2]; reflexivity.
Qed.

(** X13. A response that is not a 202 with a [job_id] is parsed on the spot,
    whatever [sync] is: a 200 body is parsed even if it has a [job_id],
    and so is a 202 body without one.  The outcome of [scrape] is the
    outcome of the parser on the body. *)
Theorem scrape_parses_direct_response
  s self clock a w w' r d :
  request_with_retry_on s self "POST" "/api/v1/scrape"
    (Some (PDict (_build_scrape_payload self a))) w = (Ok r, w') ->
  resp_json r = Some (PDict d) ->
  resp_status_code r <> 202 \/ dict_get d "job_id" = None ->
  scrape_on s self clock a w = (_parse_scrape_response (PDict d), w').
Proof.
  intros Hrun Hjson Hdirect.
  unfold scrape_on. cbv zeta. unfold bind at 1. rewrite Hrun.
  unfold bind, lift, response_json, ret. rewrite Hjson.
  destruct (Z.eqb_spec (resp_status_code r) 202) as [E|N].
  - destruct Hdirect as [Hne|Hnone]; [contradiction|].
    cbn [py_contains]. rewrite Hnone. reflexivity.
  - reflexivity.
Qed.

(** X14. An error of the transport comes out of every operation as it is, with
    the world as the transport left it: [scrape], [get_job_status],
    [estimate_cost] and [get_usage] neither catch nor replace it. *)
Theorem operations_surface_transport_errors s self e w w' :
  (forall clock a,
      request_with_retry_on s self "POST" "/api/v1/scrape"
        (Some (PDict (_build_scrape_payload self a))) w = (Raise e, w') ->
      scrape_on s self clock a w = (Raise e, w'))
  /\ (forall job_id,
      request_with_retry_on s self "GET" ("/api/v1/jobs/" ++ fstr job_id)
        None w = (Raise e, w') ->
      get_job_status_on s self job_id w = (Raise e, w'))
  /\ (forall url mode adv cc,
      request_with_retry_on s self "POST" "/api/v1/scrape/estimate"
        (Some (PDict (estimate_payload url mode adv cc))) w = (Raise e, w') ->
      estimate_cost_on s self url mode adv cc w = (Raise e, w'))
  /\ (request_with_retry_on s self "GET" "/api/v1/usage" None w
      = (Raise e, w') ->
      get_usage_on s self w = (Raise e, w')).
Proof.
  repeat split; intros.
  - unfold scrape_on. cbv zeta. unfold bind at 1. rewrite H. reflexivity.
  - unfold get_job_status_on. unfold bind at 1. rewrite H. reflexivity.
  - unfold estimate_cost_on. cbv zeta. unfold bind at 1. rewrite H.
    reflexivity.
  - unfold get_usage_on. unfold bind at 1. rewrite H. reflexivity.
Qed.

(** X15. [estimate_cost] sends only [url], [mode] and the option blocks that
    were given, and fills what the answer lacks: the url of the call,
    tier "2", 2 credits, confidence "medium", at most 20 credits, no
    reasoning. *)
Theorem estimate_cost_defaults s self url mode adv cc w w' r d :
  request_with_retry_on s self "POST" "/api/v1/scrape/estimate"
    (Some (PDict (estimate_payload url mode adv cc))) w = (Ok r, w') ->
  resp_json r = Some (PDict d) ->
  estimate_cost_on s self url mode adv cc w
  = (Ok {| ce_url := dict_get_default d "url" (PStr url);
           estimated_tier := dict_get_default d "estimated_tier" (PStr "2");
           estimated_credits := dict_get_default d "estimated_credits" (PInt 2);
           confidence := dict_get_default d "confidence" (PStr "medium");
           max_possible_credits :=
             dict_get_default d "max_possible_credits" (PInt 20);
           reasoning := dict_get_default d "reasoning" (PStr "") |}, w')
  /\ estimate_payload url mode adv cc
     = [("url", PStr url); ("mode", PStr mode)]
         ++ match adv with
            | Some o => [("advanced", PDict (AdvancedOptions_to_dict o))]
            | None => []
            end
         ++ match cc with
            | Some o => [("cost_controls", PDict (CostControls_to_dict o))]
            | None => []
            end.
Proof.
  intros Hrun Hjson. split.
  - unfold estimate_cost_on. cbv zeta. unfold bind at 1. rewrite Hrun.
    unfold bind, lift, response_json, ret. rewrite Hjson. reflexivity.
  - unfold estimate_payload. destruct adv, cc; reflexivity.
Qed.

(** X16. [get_usage] fills what a JSON object lacks with zeros and empty
    strings; a JSON body that is not an object makes it raise
    [AttributeError], a body that is not JSON the decoding error. *)
Theorem get_usage_defaults_and_errors s self w w' r :
  request_with_retry_on s self "GET" "/api/v1/usage" None w = (Ok r, w') ->
  (forall d, resp_json r = Some (PDict d) ->
     get_usage_on s self w
     = (Ok {| credits_available := dict_get_default d "credits_available" (PInt 0);
              credits_used_month := dict_get_default d "credits_used_month" (PInt 0);
              credits_limit := dict_get_default d "credits_limit" (PInt 0);
              plan := dict_get_default d "plan" (PStr "");
              period_start := dict_get_default d "period_start" (PStr "");
              period_end := dict_get_default d "period_end" (PStr "") |}, w'))
  /\ (forall v, resp_json r = Some v -> (forall d, v <> PDict d) ->
                get_usage_on s self w = (Raise PyAttributeError, w'))
  /\ (resp_json r = None ->
      get_usage_on s self w = (Raise JSONDecodeError, w')).
Proof.
  intros Hrun. repeat split.
  - intros d Hjson. unfold get_usage_on. unfold bind at 1. rewrite Hrun.
    unfold bind, lift, response_json, ret. rewrite Hjson. reflexivity.
  - intros v Hjson Hv. unfold get_usage_on. unfold bind at 1. rewrite Hrun.
    unfold bind, lift, response_json, ret. rewrite Hjson.
    destruct v; try reflexivity. exfalso. exact (Hv d eq_refl).
  - intros Hjson. unfold get_usage_on. unfold bind at 1. rewrite Hrun.
    unfold bind, lift, response_json. rewrite Hjson. reflexivity.
Qed.

(* =================================================================== *)
(** ** More on the request builder                                       *)
(* =================================================================== *)

Lemma payload_mode_lookups (self : AlterLab) (a : scrape_args) :
  dict_get (_build_scrape_payload self a) "mode" = Some (PStr (a_mode a))
  /\ dict_get (_build_scrape_payload self a) "pdf_format"
     = (if (a_mode a =? "pdf")%string then Some (PStr (a_pdf_format a))
        else None)
  /\ dict_get (_build_scrape_payload self a) "ocr_language"
     = (if (a_mode a =? "ocr")%string then Some (PStr (a_ocr_language a))
        else None).
Proof.
  unfold _build_scrape_payload. cbv zeta.
  repeat first [rewrite dict_get_set_if | rewrite dict_get_set_opt].
  cbn [String.eqb Ascii.eqb Bool.eqb andb dict_get].
  repeat split;
    repeat match goal with
           | |- context [if ?c then _ else _] => destruct c
           end;
    reflexivity.
Qed.

(** X17. The ten fields of every scrape payload: they are always there with
    the value of the call, no conditional field overwrites them, and the
    timeout is the one of the call unless that is absent or 0, when it is
    the one of the client. *)
Theorem payload_always_has_base_fields (self : AlterLab) (a : scrape_args) :
  let payload := _build_scrape_payload self a in
  dict_get payload "url" = Some (PStr (a_url a))
  /\ dict_get payload "mode" = Some (PStr (a_mode a))
  /\ dict_get payload "sync" = Some (PBool (a_sync a))
  /\ dict_get payload "cache" = Some (PBool (a_cache a))
  /\ dict_get payload "force_refresh" = Some (PBool (a_force_refresh a))
  /\ dict_get payload "include_raw_html" = Some (PBool (a_include_raw_html a))
  /\ dict_get payload "evidence" = Some (PBool (a_evidence a))
  /\ dict_get payload "promote_schema_org"
     = Some (PBool (a_promote_schema_org a))
  /\ dict_get payload "wait_until" = Some (PStr (a_wait_until a))
  /\ dict_get payload "timeout"
     = Some (PInt (match a_timeout a with
                   | Some z => if z =? 0 then timeout self else z
                   | None => timeout self
                   end)).
Proof.
  cbv zeta. unfold _build_scrape_payload. cbv zeta.
  repeat split;
    repeat first [rewrite dict_get_set_if | rewrite dict_get_set_opt];
    reflexivity.
Qed.

(** X18. The mode-specific fields: [pdf_format] is sent exactly in mode "pdf"
    and [ocr_language] exactly in mode "ocr", so never both. *)
Theorem payload_mode_specific_fields (self : AlterLab) (a : scrape_args) :
  let payload := _build_scrape_payload self a in
  dict_get payload "pdf_format"
  = (if (a_mode a =? "pdf")%string then Some (PStr (a_pdf_format a)) else None)
  /\ dict_get payload "ocr_language"
     = (if (a_mode a =? "ocr")%string then Some (PStr (a_ocr_language a))
        else None)
  /\ (dict_get payload "pdf_format" = None
      \/ dict_get payload "ocr_language" = None).
Proof.
  cbv zeta.
  destruct (payload_mode_lookups self a) as [_ [Hpdf Hocr]].
  split; [exact Hpdf|]. split; [exact Hocr|].
  rewrite Hpdf, Hocr.
  destruct (String.eqb_spec (a_mode a) "pdf") as [E|_]; [|left; reflexivity].
  rewrite E. right. reflexivity.
Qed.

Lemma payload_conditional_lookups (self : AlterLab) (a : scrape_args) :
  dict_get (_build_scrape_payload self a) "advanced"
  = option_map (fun adv => PDict (AdvancedOptions_to_dict adv)) (a_advanced a)
  /\ dict_get (_build_scrape_payload self a) "screenshot"
     = (if a_screenshot a then Some (PBool true) else None)
  /\ dict_get (_build_scrape_payload self a) "wait_for"
     = match a_wait_for a with
       | Some p => if (p =? "")%string then None else Some (PStr p)
       | None => None
       end.
Proof.
  unfold _build_scrape_payload. cbv zeta.
  repeat first [rewrite dict_get_set_if | rewrite dict_get_set_opt].
  cbn [String.eqb Ascii.eqb Bool.eqb andb dict_get].
  repeat split.
  - destruct (a_advanced a); reflexivity.
  - destruct (a_screenshot a); reflexivity.
  - destruct (a_wait_for a) as [q|]; [|reflexivity].
    cbn [opt_str_truthy opt_str]. destruct (q =? "")%string; reflexivity.
Qed.

(** X19. What the convenience wrappers put in the payload: [scrape_pdf] always
    sends mode "pdf" with its [format] and no OCR language, [scrape_ocr]
    mode "ocr" with its [language] and no PDF format, [scrape_html] mode
    "html" with neither, [scrape_js] mode "js" with an advanced-options
    block whose [render_js] is true, its [wait_for] when that is not
    empty, and no top-level [screenshot] key. *)
Theorem convenience_wrappers_payload
  (self : AlterLab) (url : string) (kw : scrape_args)
  (format language : string) (screenshot : bool) (wait_for : option string) :
  (let payload := _build_scrape_payload self (scrape_pdf_args url format kw) in
   dict_get payload "mode" = Some (PStr "pdf")
   /\ dict_get payload "pdf_format" = Some (PStr format)
   /\ dict_get payload "ocr_language" = None)
  /\ (let payload :=
        _build_scrape_payload self (scrape_ocr_args url language kw) in
      dict_get payload "mode" = Some (PStr "ocr")
      /\ dict_get payload "ocr_language" = Some (PStr language)
      /\ dict_get payload "pdf_format" = None)
  /\ (let payload := _build_scrape_payload self (scrape_html_args url kw) in
      dict_get payload "mode" = Some (PStr "html")
      /\ dict_get payload "pdf_format" = None
      /\ dict_get payload "ocr_language" = None)
  /\ (let payload :=
        _build_scrape_payload self
          (scrape_js_args url screenshot wait_for kw) in
      dict_get payload "mode" = Some (PStr "js")
      /\ (exists blk, dict_get payload "advanced" = Some (PDict blk)
                      /\ dict_get blk "render_js" = Some (PBool true))
      /\ dict_get payload "screenshot" = None
      /\ dict_get payload "wait_for"
         = match wait_for with
           | Some sel => if (sel =? "")%string then None else Some (PStr sel)
           | None => None
           end).
Proof.
  cbv zeta.
  pose proof (fun a => proj1 (payload_mode_lookups self a)) as Hbase.
  pose proof (fun a => proj2 (payload_mode_lookups self a)) as Hmode.
  pose proof (payload_conditional_lookups self) as Hcond.
  repeat split.
  - apply (Hbase (scrape_pdf_args url format kw)).
  - apply (Hmode (scrape_pdf_args url format kw)).
  - apply (Hmode (scrape_pdf_args url format kw)).
  - apply (Hbase (scrape_ocr_args url language kw)).
  - apply (Hmode (scrape_ocr_args url language kw)).
  - apply (Hmode (scrape_ocr_args url language kw)).
  - apply (Hbase (scrape_html_args url kw)).
  - apply (Hmode (scrape_html_args url kw)).
  - apply (Hmode (scrape_html_args url kw)).
  - apply (Hbase (scrape_js_args url screenshot wait_for kw)).
  - destruct (Hcond (scrape_js_args url screenshot wait_for kw))
      as [Hadv _].
    cbn [scrape_js_args a_advanced option_map] in Hadv.
    eexists. split; [exact Hadv|].
    unfold scrape_js_advanced. cbv zeta.
    destruct (a_advanced kw) as [o|]; [destruct (render_js o) eqn:E|];
      destruct screenshot; cbn; try rewrite E; reflexivity.
  - apply (Hcond (scrape_js_args url screenshot wait_for kw)).
  - apply (Hcond (scrape_js_args url screenshot wait_for kw)).
Qed.

(* =================================================================== *)
(** ** Option classes                                                    *)
(* =================================================================== *)

Lemma post_init_accepts (a : AdvancedOptions) :
  AdvancedOptions_post_init a = None
  <-> (ao_screenshot a = true -> render_js a = true)
      /\ (generate_pdf a = true -> render_js a = true)
      /\ (wait_condition a = "domcontentloaded"
          \/ wait_condition a = "networkidle"
          \/ wait_condition a = "load").
Proof.
  unfold AdvancedOptions_post_init.
  destruct (ao_screenshot a), (render_js a), (generate_pdf a);
    cbn [andb negb orb];
    destruct (String.eqb_spec (wait_condition a) "domcontentloaded");
    destruct (String.eqb_spec (wait_condition a) "networkidle");
    destruct (String.eqb_spec (wait_condition a) "load");
    cbn [andb negb orb];
    (split; [intros H; try discriminate H; repeat split; auto
            |intros [H1 [H2 H3]]; try reflexivity;
             try (specialize (H1 eq_refl); discriminate H1);
             try (specialize (H2 eq_refl); discriminate H2);
             destruct H3 as [H3|[H3|H3]]; contradiction]).
Qed.

(** X20. [AdvancedOptions.__post_init__] accepts exactly the options in which
    a screenshot and a PDF each come with [render_js] and the wait
    condition is one of the three names.  A screenshot without
    [render_js] is refused with its own message whatever the other
    fields are; a PDF without [render_js] (and no such screenshot) with
    the message about the PDF. *)
Theorem AdvancedOptions_post_init_accepts_iff (a : AdvancedOptions) :
  (AdvancedOptions_post_init a = None
   <-> (ao_screenshot a = true -> render_js a = true)
       /\ (generate_pdf a = true -> render_js a = true)
       /\ (wait_condition a = "domcontentloaded"
           \/ wait_condition a = "networkidle"
           \/ wait_condition a = "load"))
  /\ (ao_screenshot a = true -> render_js a = false ->
      AdvancedOptions_post_init a
      = Some "screenshot requires render_js=True")
  /\ (ao_screenshot a = false -> generate_pdf a = true ->
      render_js a = false ->
      AdvancedOptions_post_init a
      = Some "generate_pdf requires render_js=True").
Proof.
  split; [apply post_init_accepts|].
  unfold AdvancedOptions_post_init. split.
  - intros -> ->. reflexivity.
  - intros -> -> ->. reflexivity.
Qed.

(** X21. The options [scrape_js] passes on always have [render_js] set, and
    [screenshot] set when it was asked for; nothing else is changed, and
    options that passed [__post_init__] still satisfy it (the default
    created when none are given does too). *)
Theorem scrape_js_forces_render_js
  (screenshot : bool) (advanced : option AdvancedOptions) :
  let sent := scrape_js_advanced screenshot advanced in
  render_js sent = true
  /\ (screenshot = true -> ao_screenshot sent = true)
  /\ (forall a, advanced = Some a ->
        (screenshot = false -> ao_screenshot sent = ao_screenshot a)
        /\ markdown sent = markdown a
        /\ generate_pdf sent = generate_pdf a
        /\ ocr sent = ocr a
        /\ use_proxy sent = use_proxy a
        /\ use_own_proxy sent = use_own_proxy a
        /\ use_system_proxy sent = use_system_proxy a
        /\ proxy_integration_id sent = proxy_integration_id a
        /\ proxy_country sent = proxy_country a
        /\ wait_condition sent = wait_condition a
        /\ remove_cookie_banners sent = remove_cookie_banners a
        /\ (AdvancedOptions_post_init a = None ->
            AdvancedOptions_post_init sent = None))
  /\ (advanced = None -> AdvancedOptions_post_init sent = None).
Proof.
  cbv zeta. unfold scrape_js_advanced. cbv zeta.
  split; [|split; [|split]].
  - destruct advanced as [a|]; [destruct (render_js a) eqn:E|];
      destruct screenshot; cbn; try rewrite E; reflexivity.
  - intros ->. destruct advanced as [a|]; [destruct (render_js a)|];
      reflexivity.
  - intros a ->.
    assert (Hfields :
              forall sent,
                sent = (if screenshot
                        then set_screenshot
                               (if negb (render_js a) then set_render_js a
                                else a)
                        else if negb (render_js a) then set_render_js a
                             else a) ->
                render_js sent = true
                /\ generate_pdf sent = generate_pdf a
                /\ wait_condition sent = wait_condition a).
    { intros sent ->. destruct screenshot, (render_js a) eqn:E; cbn;
        try rewrite E; repeat split; reflexivity. }
    destruct (Hfields _ eq_refl) as [Hr [Hp Hw]].
    repeat split;
      try (destruct screenshot, (render_js a); reflexivity).
    + intros ->. destruct (render_js a); reflexivity.
    + intros Hok.
      apply post_init_accepts in Hok.
      destruct Hok as [_ [_ Hwc]].
      apply post_init_accepts.
      rewrite Hw. repeat split; auto.
  - intros ->. destruct screenshot; reflexivity.
Qed.

(** X22. [CostControls.to_dict] always carries the three flags, and [max_tier]
    exactly when one is set (and not the empty string). *)
Theorem CostControls_to_dict_fields (cc : CostControls) :
  dict_get (CostControls_to_dict cc) "prefer_cost" = Some (PBool (prefer_cost cc))
  /\ dict_get (CostControls_to_dict cc) "prefer_speed"
     = Some (PBool (prefer_speed cc))
  /\ dict_get (CostControls_to_dict cc) "fail_fast" = Some (PBool (fail_fast cc))
  /\ dict_get (CostControls_to_dict cc) "max_tier"
     = match max_tier cc with
       | Some t => if (t =? "")%string then None else Some (PStr t)
       | None => None
       end
  /\ (3 <= List.length (CostControls_to_dict cc) <= 4)%nat.
Proof.
  unfold CostControls_to_dict. cbv zeta.
  repeat split; try (rewrite dict_get_set_if; reflexivity).
  - rewrite dict_get_set_if. cbn [String.eqb Ascii.eqb Bool.eqb andb dict_get].
    destruct (max_tier cc) as [t|]; [|reflexivity].
    cbn [opt_str_truthy opt_str]. destruct (t =? "")%string; reflexivity.
  - destruct (opt_str_truthy (max_tier cc)); cbn; lia.
  - destruct (opt_str_truthy (max_tier cc)); cbn; lia.
Qed.

(* =================================================================== *)
(** ** More on the response parser                                       *)
(* =================================================================== *)

Lemma rmap_parse_escalation_ok (items : list pyval) :
  (exists es, rmap parse_escalation items = Ok es)
  <-> forallb is_dict items = true.
Proof.
  induction items as [|v items IH]; cbn [rmap forallb].
  - split; [reflexivity|eauto].
  - destruct v; cbn [parse_escalation py_get rbind is_dict andb];
      try (split; [intros [es H]; discriminate H|discriminate]).
    split.
    + intros [es H]. apply IH.
      destruct (rmap parse_escalation items) as [ys|e]; [eauto|discriminate H].
    + intros H. apply IH in H. destruct H as [ys ->]. cbn [rbind]. eauto.
Qed.

(** X23. The parser succeeds exactly on a JSON object whose [billing], if
    present, is an object and whose [escalations], if present, can be
    iterated and yields objects only.  On anything else it raises. *)
Theorem parse_succeeds_iff_well_shaped (v : pyval) :
  (exists r, _parse_scrape_response v = Ok r)
  <-> exists d b items,
        v = PDict d
        /\ dict_get_default d "billing" (PDict []) = PDict b
        /\ py_iter (dict_get_default b "escalations" (PList [])) = Ok items
        /\ forallb is_dict items = true.
Proof.
  split.
  - intros [r H]. destruct v; try discriminate H.
    unfold _parse_scrape_response in H. cbn [py_get rbind] in H.
    destruct (dict_get_default d "billing" (PDict [])) as [| | | | | |b] eqn:Hb;
      try discriminate H.
    cbn [py_get rbind] in H.
    destruct (py_iter (dict_get_default b "escalations" (PList [])))
      as [items|e] eqn:Hit; [|discriminate H].
    cbn [rbind] in H.
    destruct (rmap parse_escalation items) as [es|e] eqn:Hes;
      [|discriminate H].
    exists d, b, items. repeat split; try assumption.
    apply rmap_parse_escalation_ok. eauto.
  - intros [d [b [items [-> [Hb [Hit Hall]]]]]].
    apply rmap_parse_escalation_ok in Hall. destruct Hall as [es Hes].
    unfold _parse_scrape_response. cbn [py_get rbind]. rewrite Hb.
    cbn [py_get rbind]. rewrite Hit. cbn [rbind]. rewrite Hes.
    cbn [rbind]. eauto.
Qed.

(** X24. The accessors of a result: every parsed result has billing, so its
    [credits_used] and [tier_used] are those of the payload (0 and "1"
    when it has none), and its [text] is its content when that is not an
    object.  The placeholder of an asynchronous submission has no billing:
    its [credits_used] is 0 and its [tier_used] "1". *)
Theorem parsed_result_accessors (d b : pydict) (r : ScrapeResult) :
  dict_get_default d "billing" (PDict []) = PDict b ->
  _parse_scrape_response (PDict d) = Ok r ->
  SR.credits_used r = dict_get_default b "total_credits" (PInt 0)
  /\ SR.tier_used r = dict_get_default b "tier_used" (PStr "1")
  /\ sr_billing r <> None
  /\ (forall c, dict_get_default d "content" (PStr "") = PDict c ->
                SR.text r = dict_get_default c "text" (PStr "")
                /\ SR.html r = dict_get_default c "html" (PStr "")
                /\ SR.json r = dict_get_default c "json" (PDict [])
                /\ SR.markdown_content r
                   = dict_get_default c "markdown" (PStr ""))
  /\ (is_dict (dict_get_default d "content" (PStr "")) = false ->
      SR.text r = dict_get_default d "content" (PStr "")
      /\ SR.html r = dict_get_default d "content" (PStr "")
      /\ SR.json r = PDict []
      /\ SR.markdown_content r = PStr "")
  /\ (forall url job_id,
        let placeholder :=
          ScrapeResult_init url (PInt 202) (PDict [("job_id", job_id)])
                            (PDict [("job_id", job_id)]) in
        SR.credits_used placeholder = PInt 0
        /\ SR.tier_used placeholder = PStr "1"
        /\ SR.text placeholder = PStr "").
Proof.
  intros Hb Hparse.
  unfold _parse_scrape_response in Hparse. cbn [py_get rbind] in Hparse.
  rewrite Hb in Hparse. cbn [py_get rbind] in Hparse.
  destruct (py_iter (dict_get_default b "escalations" (PList [])))
    as [items|e]; [|discriminate Hparse].
  cbn [rbind] in Hparse.
  destruct (rmap parse_escalation items) as [es|e]; [|discriminate Hparse].
  cbn [rbind] in Hparse. injection Hparse as <-.
  unfold SR.credits_used, SR.tier_used, SR.text, SR.html, SR.json,
    SR.markdown_content, SR.content_view.
  cbn [sr_billing sr_content total_credits tier_used].
  repeat split; try discriminate.
  - rewrite H. reflexivity.
  - rewrite H. reflexivity.
  - rewrite H. reflexivity.
  - rewrite H. reflexivity.
  - destruct (dict_get_default d "content" (PStr "")); try reflexivity;
      discriminate H.
  - destruct (dict_get_default d "content" (PStr "")); try reflexivity;
      discriminate H.
  - destruct (dict_get_default d "content" (PStr "")); try reflexivity;
      discriminate H.
  - destruct (dict_get_default d "content" (PStr "")); try reflexivity;
      discriminate H.
Qed.

(* =================================================================== *)
(** ** Client construction                                               *)
(* =================================================================== *)

Lemma rstrip_slash_no_trailing (s : string) :
  ends_with_slash (rstrip_slash s) = false.
Proof.
  induction s as [|c s IH]; [reflexivity|].
  cbn [rstrip_slash]. destruct (rstrip_slash s) as [|c' t] eqn:E.
  - destruct (Ascii.eqb c "/") eqn:Ec; cbn [ends_with_slash];
      [reflexivity|exact Ec].
  - cbn [ends_with_slash] in *. exact IH.
Qed.

Lemma rstrip_slash_decompose (s : string) :
  exists n, s = (rstrip_slash s ++ slashes n)%string.
Proof.
  induction s as [|c s [n IH]]; [exists 0%nat; reflexivity|].
  cbn [rstrip_slash]. destruct (rstrip_slash s) as [|c' t] eqn:E.
  - cbn [String.append] in IH.
    destruct (Ascii.eqb_spec c "/") as [->|_].
    + exists (S n). cbn [slashes String.append]. congruence.
    + exists n. cbn [String.append]. congruence.
  - exists n. cbn [String.append] in *. congruence.
Qed.

(** X25. [AlterLab(...)] fails exactly when neither the argument nor the
    environment gives a non-empty API key, and prefers the argument.  The
    base URL it keeps is the one given (the default when none or an empty
    one is given) without its trailing slashes: it never ends in a
    slash. *)
Theorem AlterLab_init_key_and_base_url
  (key env url : option string) (t m : Z) (dl : Q) :
  (AlterLab_init key env url t m dl = Raise PyValueError
   <-> opt_str_truthy key = false /\ opt_str_truthy env = false)
  /\ (forall c, AlterLab_init key env url t m dl = Ok c ->
        api_key c <> ""
        /\ (opt_str_truthy key = true -> Some (api_key c) = key)
        /\ (opt_str_truthy key = false -> Some (api_key c) = env)
        /\ ends_with_slash (base_url c) = false
        /\ (exists n,
               (base_url c ++ slashes n)%string
               = match url with
                 | Some u => if (u =? "")%string then DEFAULT_BASE_URL else u
                 | None => DEFAULT_BASE_URL
                 end)
        /\ settings c = mkAlterLab t m dl).
Proof.
  unfold AlterLab_init. split.
  - destruct key as [k|]; cbn [opt_str_truthy].
    + destruct (String.eqb_spec k "") as [->|Hk]; cbn [negb].
      * destruct env as [e|]; cbn [opt_str_truthy];
          [|split; [auto|reflexivity]].
        destruct (e =? "")%string; cbn [negb];
          split; (discriminate || auto || (intros [_ H]; discriminate H)).
      * destruct (String.eqb_spec k "") as [E|_]; [contradiction|].
        split; [discriminate|intros [H _]; discriminate H].
    + destruct env as [e|]; cbn [opt_str_truthy];
        [|split; [auto|reflexivity]].
      destruct (e =? "")%string; cbn [negb];
        split; (discriminate || auto || (intros [_ H]; discriminate H)).
  - intros c H.
    set (base := match url with
                 | Some u => if (u =? "")%string then DEFAULT_BASE_URL else u
                 | None => DEFAULT_BASE_URL
                 end) in *.
    destruct (if opt_str_truthy key then key else env) as [k|] eqn:Hkey;
      [|discriminate H].
    destruct (String.eqb_spec k "") as [->|Hk]; [discriminate H|].
    injection H as <-. cbn [api_key base_url settings].
    split; [exact Hk|].
    split; [intros Ht; rewrite Ht in Hkey; congruence|].
    split; [intros Hf; rewrite Hf in Hkey; congruence|].
    split; [apply rstrip_slash_no_trailing|].
    split; [|reflexivity].
    destruct (rstrip_slash_decompose base) as [n Hn]. exists n. congruence.
Qed.

End Client.

(* ===================================================================== *)
(** * The theorems at worked inputs                                        *)
(* ===================================================================== *)

(** [C1_retry_503_503_200] at the default client: the second 503 carries
    [Retry-After: 7], the first has no such header. *)
Lemma C1_retry_503_503_200_witness :
  _request_with_retry decimal_float decimal_int AlterLab_default "GET" "/api/v1/usage" None
    (mkWorld [Resp (status_response 503 None);
              Resp (status_response 503 (Some "7"));
              Resp (status_response 200 None)] [])
  = (Ok (status_response 200 None),
     mkWorld []
       [EvRequest Blocking "GET" "/api/v1/usage" None; EvSleep Blocking (1 * 1)%Q;
        EvRequest Blocking "GET" "/api/v1/usage" None; EvSleep Blocking (inject_Z 7);
        EvRequest Blocking "GET" "/api/v1/usage" None]).
Proof.
  apply (C1_retry_503_503_200 decimal_float decimal_int AlterLab_default
           "GET" "/api/v1/usage" None
           (status_response 503 None) (status_response 503 (Some "7"))
           (status_response 200 None) [] [] (1 * 1)%Q (inject_Z 7)).
  - reflexivity.
  - reflexivity.
  - reflexivity.
  - reflexivity.
  - reflexivity.
  - split; [discriminate | reflexivity].
Defined.

(** C2 (the code at the failing input). With [max_retries = 3] and three
    429 responses carrying [Retry-After: 7], the synchronous transport
    raises the generic [AlterLabAPIError] built from the last response,
    which is no [RateLimitError] and carries no retry-after hint, although
    [_handle_error_response] on that same response would raise
    [RateLimitError] with the hint 7. *)
Theorem C2_exhausted_429_raises_generic_error :
  let r := mkResponse 429 "Too Many Requests" None (Some "7") in
  _request_with_retry decimal_float decimal_int AlterLab_default
    "POST" "/api/v1/scrape" None (mkWorld [Resp r; Resp r; Resp r] [])
  = (Raise (AlterLabAPIError 429 (PStr "Too Many Requests") (Some r)),
     mkWorld []
       [EvRequest Blocking "POST" "/api/v1/scrape" None; EvSleep Blocking (inject_Z 7);
        EvRequest Blocking "POST" "/api/v1/scrape" None; EvSleep Blocking (inject_Z 7);
        EvRequest Blocking "POST" "/api/v1/scrape" None; EvSleep Blocking (inject_Z 7)])
  /\ (forall msg hint resp,
        AlterLabAPIError 429 (PStr "Too Many Requests") (Some r)
        <> RateLimitError msg hint resp)
  /\ _handle_error_response decimal_int r
     = Raise (RateLimitError (PStr "Too Many Requests") (Some 7) (Some r)).
Proof.
  cbv zeta. split; [reflexivity|]. split; [|reflexivity].
  intros msg hint resp. discriminate.
Qed.

(** C3 as the specification states it fails when an advanced-options block
    is passed with its proxy fields unset: the block holds two nulls. *)
Lemma C3_counterexample :
  ~ payload_null_free
      (_build_scrape_payload AlterLab_default
         (scrape_with_advanced "https://example.com" AdvancedOptions_default)).
Proof.
  intros [_ Hblk].
  specialize (Hblk (AdvancedOptions_to_dict AdvancedOptions_default) eq_refl).
  unfold no_null_values in Hblk. rewrite Forall_forall in Hblk.
  apply (Hblk ("proxy_country", PNone)); [|reflexivity].
  cbn. auto 12.
Qed.

Lemma C3_payload_omits_absent_fields_witness :
  no_null_values
    (_build_scrape_payload AlterLab_default
       (scrape_with_advanced "https://example.com" AdvancedOptions_default))
  /\ dict_get (AdvancedOptions_to_dict AdvancedOptions_default) "proxy_country"
     = Some PNone.
Proof.
  pose proof (C3_payload_omits_absent_fields AlterLab_default
                (scrape_with_advanced "https://example.com"
                                      AdvancedOptions_default)) as H.
  cbv zeta in H.
  destruct H as [Hnn [_ [_ [_ [_ [_ [_ [_ [_ [_ [_ [_ Hadv]]]]]]]]]]]].
  split; [exact Hnn|].
  destruct (Hadv AdvancedOptions_default eq_refl) as [_ [_ [Hc _]]].
  exact Hc.
Defined.

Lemma C4_async_submission_returns_job_id_witness :
  fst (scrape decimal_float decimal_int format_unused AlterLab_default []
         (scrape_no_wait "https://example.com")
         (mkWorld [Resp (json_response 202 (PDict [("job_id", PStr "abc")]))] []))
  = Ok (ScrapeResult_init (PStr "https://example.com") (PInt 202)
          (PDict [("job_id", PStr "abc")]) (PDict [("job_id", PStr "abc")])).
Proof.
  pose proof (C4_async_submission_returns_job_id
                decimal_float decimal_int format_unused Blocking
                AlterLab_default [] (scrape_no_wait "https://example.com")
                (mkWorld [Resp (json_response 202
                                  (PDict [("job_id", PStr "abc")]))] [])
                (mkWorld [] [EvRequest Blocking "POST" "/api/v1/scrape"
                               (Some (PDict (_build_scrape_payload
                                  AlterLab_default
                                  (scrape_no_wait "https://example.com"))))])
                (json_response 202 (PDict [("job_id", PStr "abc")]))
                [("job_id", PStr "abc")] (PStr "abc")
                eq_refl eq_refl eq_refl eq_refl eq_refl) as [H _].
  unfold scrape. rewrite H. reflexivity.
Defined.

(** C5 as the specification states it fails on the payload
    [{"status": "queued"}]: the status [get_job_status] yields is
    ["queued"], not ["pending"]. *)
Lemma C5_counterexample :
  unknown_status [("status", PStr "queued")]
  /\ exists js w',
      get_job_status decimal_float decimal_int format_unused AlterLab_default
        (PStr "abc")
        (mkWorld [Resp (json_response 200 (PDict [("status", PStr "queued")]))] [])
      = (Ok js, w')
      /\ js_status js <> PStr "pending".
Proof.
  split.
  - right. exists "queued". repeat split; discriminate.
  - eexists. eexists. split; [reflexivity|]. cbn. discriminate.
Qed.

Lemma C5_unknown_status_keeps_polling_witness :
  wait_for_job decimal_float decimal_int format_unused AlterLab_default
    [0; 1; 400]%Q (PStr "abc") (1 # 2) (300 # 1)
    (mkWorld [Resp (json_response 200 (PDict [("status", PStr "queued")]))] [])
  = (Raise (TimeoutError (PStr "abc") (300 # 1)),
     mkWorld [] [EvRequest Blocking "GET" "/api/v1/jobs/abc" None;
                 EvSleep Blocking (1 # 2)]).
Proof.
  destruct (C5_unknown_status_keeps_polling
              decimal_float decimal_int format_unused Blocking
              AlterLab_default (PStr "abc") (1 # 2) (300 # 1) 0 1 [400]%Q
              (mkWorld [Resp (json_response 200
                                (PDict [("status", PStr "queued")]))] [])
              (mkWorld [] [EvRequest Blocking "GET" "/api/v1/jobs/abc" None])
              (json_response 200 (PDict [("status", PStr "queued")]))
              [("status", PStr "queued")])
    as [js [_ [_ [_ [_ Hloop]]]]].
  - reflexivity.
  - reflexivity.
  - right. exists "queued". repeat split; discriminate.
  - intros H. discriminate H.
  - vm_compute. discriminate.
  - unfold wait_for_job, wait_for_job_on. rewrite Hloop. reflexivity.
Defined.

Lemma C6_timeout_checked_before_poll_witness :
  wait_for_job_async decimal_float decimal_int format_unused AlterLab_default
    [10; 311]%Q (PStr "abc") (1 # 2) (300 # 1)
    (mkWorld [Resp (json_response 200 (PDict [("status", PStr "running")]))] [])
  = (Raise (TimeoutError (PStr "abc") (300 # 1)),
     mkWorld [Resp (json_response 200 (PDict [("status", PStr "running")]))] []).
Proof.
  apply (C6_timeout_checked_before_poll
           decimal_float decimal_int format_unused Suspending
           AlterLab_default (PStr "abc") (1 # 2) (300 # 1) 10 311 []).
  reflexivity.
Defined.

(** C7 as the specification states it fails on the text of the message:
    the error raised for [{"status": "succeeded"}] does not carry the
    message with a small j. *)
Lemma C7_counterexample :
  exists e w',
    wait_for_job decimal_float decimal_int format_unused AlterLab_default
      [0; 1]%Q (PStr "abc") (1 # 2) (300 # 1)
      (mkWorld [Resp (json_response 200 (PDict [("status", PStr "succeeded")]))] [])
    = (Raise e, w')
    /\ forall st code,
        e <> ScrapeError st (PStr "job completed but no result returned") code.
Proof.
  eexists. eexists. split; [reflexivity|].
  intros st code. discriminate.
Qed.

Lemma C7_succeeded_without_result_raises_witness :
  wait_for_job decimal_float decimal_int format_unused AlterLab_default
    [0; 1]%Q (PStr "abc") (1 # 2) (300 # 1)
    (mkWorld [Resp (json_response 200 (PDict [("status", PStr "succeeded")]))] [])
  = (Raise (ScrapeError 200 (PStr "Job completed but no result returned") None),
     mkWorld [] [EvRequest Blocking "GET" "/api/v1/jobs/abc" None]).
Proof.
  apply (C7_succeeded_without_result_raises
           decimal_float decimal_int format_unused Blocking AlterLab_default
           (PStr "abc") (1 # 2) (300 # 1) 0 1 []
           (mkWorld [Resp (json_response 200
                             (PDict [("status", PStr "succeeded")]))] [])
           (mkWorld [] [EvRequest Blocking "GET" "/api/v1/jobs/abc" None])
           (mkJobStatus (PStr "abc") (PStr "succeeded") None PNone)).
  - vm_compute. discriminate.
  - reflexivity.
  - reflexivity.
  - reflexivity.
Defined.

Lemma C8_client_error_stops_immediately_witness :
  _request_with_retry decimal_float decimal_int AlterLab_default
    "GET" "/api/v1/usage" None
    (mkWorld [Resp (status_response 401 None); Resp (status_response 200 None)] [])
  = (Raise (AuthenticationError 401 (PStr "") (Some (status_response 401 None))),
     mkWorld [Resp (status_response 200 None)]
             [EvRequest Blocking "GET" "/api/v1/usage" None]).
Proof.
  destruct (C8_client_error_stops_immediately
              decimal_float decimal_int Blocking AlterLab_default
              "GET" "/api/v1/usage" None (status_response 401 None)
              [Resp (status_response 200 None)] []) as [Hrun Herr].
  - reflexivity.
  - unfold terminal_client_error. cbn. lia.
  - destruct Herr as [Herr _].
    unfold _request_with_retry. rewrite Hrun, (Herr eq_refl). reflexivity.
Defined.

(** C9 as the specification states it fails on the payload
    [{"billing": null}]: the parser raises instead of returning a result. *)
Lemma C9_counterexample :
  _parse_scrape_response (PDict [("billing", PNone)]) = Raise PyAttributeError
  /\ forall r, _parse_scrape_response (PDict [("billing", PNone)]) <> Ok r.
Proof.
  split; [reflexivity|]. intros r. discriminate.
Qed.

Lemma C9_parse_applies_defaults_witness :
  option_map escalations
    (match _parse_scrape_response
             (PDict [("content", PStr "hello");
                     ("billing",
                      PDict [("total_credits", PInt 3);
                             ("escalations",
                              PList [PDict [("credits", PInt 1)];
                                     PDict [("tier", PStr "2");
                                            ("result", PStr "failed")]])])])
     with
     | Ok r => sr_billing r
     | Raise _ => None
     end)
  = Some [mkTierEscalation (PStr "1") (PStr "success") (PInt 1) PNone PNone;
          mkTierEscalation (PStr "2") (PStr "failed") (PInt 0) PNone PNone].
Proof.
  destruct (C9_parse_applies_defaults
              [("content", PStr "hello");
               ("billing",
                PDict [("total_credits", PInt 3);
                       ("escalations",
                        PList [PDict [("credits", PInt 1)];
                               PDict [("tier", PStr "2");
                                      ("result", PStr "failed")]])])]
              [("total_credits", PInt 3);
               ("escalations",
                PList [PDict [("credits", PInt 1)];
                       PDict [("tier", PStr "2"); ("result", PStr "failed")]])]
              [[("credits", PInt 1)];
               [("tier", PStr "2"); ("result", PStr "failed")]]
              eq_refl eq_refl) as [H _].
  rewrite H. reflexivity.
Defined.

Lemma C10_sleeps_on_exhaustion_witness :
  (exists w',
      _request_with_retry decimal_float decimal_int AlterLab_default
        "GET" "/api/v1/usage" None
        (mkWorld (map Resp [status_response 503 None; status_response 429 None;
                            status_response 500 None]) [])
      = (Raise (api_error_of (status_response 500 None)), w')
      /\ count_sleeps (trace w') = 3%nat)
  /\ (exists w',
      _request_with_retry decimal_float decimal_int AlterLab_default
        "GET" "/api/v1/usage" None
        (mkWorld (map NetFail ["timed out"; "timed out"; "refused"]) [])
      = (Raise (AlterLabError "Network error: refused"), w')
      /\ count_sleeps (trace w') = 2%nat).
Proof.
  destruct (C10_sleeps_on_exhaustion
              decimal_float decimal_int AlterLab_default
              "GET" "/api/v1/usage" None
              [status_response 503 None; status_response 429 None]
              (status_response 500 None)
              ["timed out"; "timed out"] "refused" [] [])
    as [Hhttp Hnet].
  - reflexivity.
  - reflexivity.
  - repeat constructor; unfold retryable; cbn; lia.
  - repeat constructor.
  - destruct Hhttp as [evs [d [Hrun [Hs _]]]]; [cbn; lia|].
    destruct Hnet as [evs' [Hrun' [Hs' _]]]; [cbn; lia|].
    split.
    + eexists. split; [exact Hrun | exact Hs].
    + eexists. split; [exact Hrun' | exact Hs'].
Defined.

(** C10 as the specification states it fails for [max_retries = 1025]:
    when each of the 1025 attempts gets a 503 without [Retry-After], the
    sleep after the last attempt cannot be computed ([2**1024] is too large
    for a float), so there are 1025 requests but 1024 sleeps, and the call
    ends in [OverflowError]. *)
Lemma C10_counterexample :
  let run :=
    _request_with_retry decimal_float decimal_int AlterLab_1025_retries
      "GET" "/api/v1/usage" None
      (mkWorld (repeat (Resp (status_response 503 None)) 1025) []) in
  fst run = Raise PyOverflowError
  /\ script (snd run) = []
  /\ count_requests (trace (snd run)) = 1025%nat
  /\ count_sleeps (trace (snd run)) = 1024%nat
  /\ count_sleeps (trace (snd run)) <> Z.to_nat (max_retries AlterLab_1025_retries).
Proof.
  vm_compute. repeat split. discriminate.
Qed.

(* ===================================================================== *)
(** * Further theorems at worked inputs                                    *)
(* ===================================================================== *)

Lemma transport_recovers_from_transient_failures_witness :
  _request_with_retry decimal_float decimal_int AlterLab_default
    "GET" "/api/v1/usage" None
    (mkWorld [NetFail "timed out"; Resp (status_response 503 (Some "7"));
              Resp (status_response 200 None)] [])
  = (Ok (status_response 200 None),
     mkWorld []
       [EvRequest Blocking "GET" "/api/v1/usage" None; EvSleep Blocking (1 * 1)%Q;
        EvRequest Blocking "GET" "/api/v1/usage" None; EvSleep Blocking (inject_Z 7);
        EvRequest Blocking "GET" "/api/v1/usage" None]).
Proof.
  destruct (transport_recovers_from_transient_failures
              decimal_float decimal_int Blocking AlterLab_default
              "GET" "/api/v1/usage" None
              [NetFail "timed out"; Resp (status_response 503 (Some "7"))]
              (status_response 200 None) [] [])
    as [ds [Hds [Hlen Hrun]]].
  - constructor; [exact I|].
    constructor; [|constructor].
    split; [right; cbn; lia | right; discriminate].
  - reflexivity.
  - cbn. lia.
  - reflexivity.
  - destruct ds as [|d1 [|d2 [|d3 ds]]]; try discriminate Hlen.
    cbn in Hds. destruct Hds as [-> [Hd2 _]]. injection Hd2 as <-.
    exact Hrun.
Defined.

Lemma transport_without_attempts_witness :
  _request_with_retry decimal_float decimal_int AlterLab_no_retries
    "GET" "/api/v1/usage" None (mkWorld [Resp (status_response 200 None)] [])
  = (Raise (AlterLabError "Request failed after retries"),
     mkWorld [Resp (status_response 200 None)] []).
Proof.
  apply (transport_without_attempts decimal_float decimal_int Blocking
           AlterLab_no_retries).
  cbn. lia.
Defined.

Lemma transport_attempts_bounded_witness :
  exists evs,
    trace (snd (_request_with_retry decimal_float decimal_int AlterLab_default
                  "GET" "/api/v1/usage" None
                  (mkWorld [NetFail "timed out"; NetFail "timed out";
                            NetFail "timed out"; Resp (status_response 200 None)]
                           [])))
    = [] ++ evs
    /\ (count_requests evs <= 3)%nat
    /\ (count_sleeps evs <= count_requests evs)%nat.
Proof.
  eapply (transport_attempts_bounded decimal_float decimal_int Blocking
            AlterLab_default "GET" "/api/v1/usage" None
            (mkWorld [NetFail "timed out"; NetFail "timed out";
                      NetFail "timed out"; Resp (status_response 200 None)] [])).
  reflexivity.
Defined.

Lemma transport_unreadable_retry_after_witness :
  _request_with_retry decimal_float decimal_int AlterLab_default
    "GET" "/api/v1/usage" None
    (mkWorld [Resp (status_response 503 (Some "Wed, 21 Oct 2015 07:28:00 GMT"));
              Resp (status_response 200 None)] [])
  = (Raise PyValueError,
     mkWorld [Resp (status_response 200 None)]
             [EvRequest Blocking "GET" "/api/v1/usage" None]).
Proof.
  apply (transport_unreadable_retry_after decimal_float decimal_int Blocking
           AlterLab_default "GET" "/api/v1/usage" None
           (status_response 503 (Some "Wed, 21 Oct 2015 07:28:00 GMT"))
           "Wed, 21 Oct 2015 07:28:00 GMT").
  - reflexivity.
  - right. cbn. lia.
  - reflexivity.
  - discriminate.
  - reflexivity.
Defined.

Lemma transport_sends_only_its_request_witness :
  exists evs,
    trace (snd (_request_with_retry decimal_float decimal_int AlterLab_default
                  "GET" "/api/v1/usage" None
                  (mkWorld [Resp (status_response 503 None);
                            Resp (status_response 200 None)] [])))
    = [] ++ evs
    /\ Forall (fun e => is_sleep e = true
                        \/ e = EvRequest Blocking "GET" "/api/v1/usage" None)
              evs.
Proof.
  eapply (proj1 (transport_sends_only_its_request
                   decimal_float decimal_int AlterLab_default
                   "GET" "/api/v1/usage" None
                   (mkWorld [Resp (status_response 503 None);
                             Resp (status_response 200 None)] []) _ _)).
  reflexivity.
Defined.

Lemma transport_never_raises_rate_limit_witness :
  _request_with_retry decimal_float decimal_int AlterLab_default
    "GET" "/api/v1/usage" None
    (mkWorld [Resp (status_response 429 (Some "7"));
              Resp (status_response 429 (Some "7"));
              Resp (status_response 429 (Some "7"))] [])
  = (Raise (AlterLabAPIError 429 (PStr "")
              (Some (status_response 429 (Some "7")))),
     mkWorld []
       [EvRequest Blocking "GET" "/api/v1/usage" None; EvSleep Blocking (inject_Z 7);
        EvRequest Blocking "GET" "/api/v1/usage" None; EvSleep Blocking (inject_Z 7);
        EvRequest Blocking "GET" "/api/v1/usage" None; EvSleep Blocking (inject_Z 7)])
  /\ (forall msg hint r0,
        AlterLabAPIError 429 (PStr "") (Some (status_response 429 (Some "7")))
        <> RateLimitError msg hint r0).
Proof.
  split; [reflexivity|].
  eapply (proj1 (transport_never_raises_rate_limit
                   decimal_float decimal_int AlterLab_default
                   "GET" "/api/v1/usage" None
                   (mkWorld [Resp (status_response 429 (Some "7"));
                             Resp (status_response 429 (Some "7"));
                             Resp (status_response 429 (Some "7"))] []) _ _)).
  reflexivity.
Defined.

Lemma handle_error_response_raises_from_400_witness :
  _handle_error_response decimal_int (mkResponse 429 "slow down" None (Some "7"))
  = Raise (RateLimitError (PStr "slow down") (Some 7)
             (Some (mkResponse 429 "slow down" None (Some "7"))))
  /\ _handle_error_response decimal_int (status_response 204 None) = Ok tt.
Proof.
  destruct (handle_error_response_raises_from_400 decimal_int
              (mkResponse 429 "slow down" None (Some "7")))
    as [_ [Hhint _]].
  destruct (handle_error_response_raises_from_400 decimal_int
              (status_response 204 None)) as [[_ Hok] _].
  split.
  - apply (Hhint "7" 7); [reflexivity|reflexivity|discriminate|reflexivity].
  - apply Hok. cbn. lia.
Defined.

Lemma wait_for_job_failed_raises_witness :
  wait_for_job decimal_float decimal_int format_unused AlterLab_default
    [0; 1]%Q (PStr "abc") (1 # 2) (300 # 1)
    (mkWorld [Resp (json_response 200
                      (PDict [("status", PStr "failed");
                              ("error", PStr "boom")]))] [])
  = (Raise (ScrapeError 422 (PStr "boom") (Some "JOB_FAILED")),
     mkWorld [] [EvRequest Blocking "GET" "/api/v1/jobs/abc" None]).
Proof.
  apply (wait_for_job_failed_raises
           decimal_float decimal_int format_unused Blocking AlterLab_default
           (PStr "abc") (1 # 2) (300 # 1) 0 1 []
           (mkWorld [Resp (json_response 200
                             (PDict [("status", PStr "failed");
                                     ("error", PStr "boom")]))] [])
           (mkWorld [] [EvRequest Blocking "GET" "/api/v1/jobs/abc" None])
           (json_response 200 (PDict [("status", PStr "failed");
                                      ("error", PStr "boom")]))
           [("status", PStr "failed"); ("error", PStr "boom")]).
  - vm_compute. discriminate.
  - reflexivity.
  - reflexivity.
  - reflexivity.
Defined.

Lemma wait_for_job_returns_embedded_result_witness :
  fst (wait_for_job decimal_float decimal_int format_unused AlterLab_default
         [0; 1]%Q (PStr "abc") (1 # 2) (300 # 1)
         (mkWorld [Resp finished_job_response] []))
  = _parse_scrape_response (PDict [("content", PStr "hello")]).
Proof.
  destruct (wait_for_job_returns_embedded_result
              decimal_float decimal_int format_unused Blocking AlterLab_default
              (PStr "abc") (1 # 2) (300 # 1) 0 1 []
              (mkWorld [Resp finished_job_response] [])
              (mkWorld [] [EvRequest Blocking "GET" "/api/v1/jobs/abc" None])
              finished_job_response
              [("status", PStr "succeeded");
               ("result", PDict [("content", PStr "hello")])]
              (PDict [("content", PStr "hello")])
              (match _parse_scrape_response (PDict [("content", PStr "hello")])
               with Ok x => x | Raise _ => ScrapeResult_init PNone PNone PNone PNone
               end)) as [_ Hrun].
  - vm_compute. discriminate.
  - reflexivity.
  - reflexivity.
  - reflexivity.
  - reflexivity.
  - reflexivity.
  - reflexivity.
  - unfold wait_for_job. rewrite Hrun. reflexivity.
Defined.

Lemma wait_for_job_polls_until_success_witness :
  snd (wait_for_job decimal_float decimal_int format_unused AlterLab_default
         [0; 1; 2; 3]%Q (PStr "abc") (1 # 2) (300 # 1)
         (mkWorld [Resp (job_response "pending"); Resp (job_response "running");
                   Resp finished_job_response] []))
  = mkWorld []
      [EvRequest Blocking "GET" "/api/v1/jobs/abc" None; EvSleep Blocking (1 # 2);
       EvRequest Blocking "GET" "/api/v1/jobs/abc" None; EvSleep Blocking (1 # 2);
       EvRequest Blocking "GET" "/api/v1/jobs/abc" None].
Proof.
  unfold wait_for_job.
  refine (f_equal snd
           (wait_for_job_polls_until_success
             decimal_float decimal_int format_unused Blocking AlterLab_default
             (PStr "abc") (1 # 2) (300 # 1) 0
             [job_response "pending"; job_response "running"] [1; 2]%Q 3 []
             finished_job_response
             [("status", PStr "succeeded");
              ("result", PDict [("content", PStr "hello")])]
             (PDict [("content", PStr "hello")])
             (match _parse_scrape_response (PDict [("content", PStr "hello")])
              with Ok x => x | Raise _ => ScrapeResult_init PNone PNone PNone PNone
              end) [] [] _ _ _ _ _ _ _ _ _ _ _)).
  - reflexivity.
  - repeat constructor; cbn; try lia;
      eexists; (split; [reflexivity|repeat split; reflexivity]).
  - reflexivity.
  - repeat constructor; vm_compute; discriminate.
  - vm_compute. discriminate.
  - cbn. lia.
  - reflexivity.
  - reflexivity.
  - reflexivity.
  - reflexivity.
  - reflexivity.
Defined.

Lemma wait_for_job_only_polls_witness :
  exists evs,
    trace (snd (wait_for_job decimal_float decimal_int format_unused
                  AlterLab_default [0; 1; 400]%Q (PStr "abc") (1 # 2) (300 # 1)
                  (mkWorld [Resp (job_response "pending")] [])))
    = [] ++ evs
    /\ Forall (fun e => is_sleep e = true
                        \/ e = EvRequest Blocking "GET" "/api/v1/jobs/abc" None)
              evs.
Proof.
  eapply (wait_for_job_only_polls
            decimal_float decimal_int format_unused Blocking AlterLab_default
            [0; 1; 400]%Q (PStr "abc") (1 # 2) (300 # 1)
            (mkWorld [Resp (job_response "pending")] [])).
  reflexivity.
Defined.

Lemma scrape_sync_polls_the_job_witness :
  fst (scrape decimal_float decimal_int format_unused AlterLab_default
         [0; 1]%Q (scrape_defaults "https://example.com")
         (mkWorld [Resp (json_response 202 (PDict [("job_id", PStr "abc")]));
                   Resp finished_job_response] []))
  = _parse_scrape_response (PDict [("content", PStr "hello")]).
Proof.
  unfold scrape.
  rewrite (scrape_sync_polls_the_job
             decimal_float decimal_int format_unused Blocking AlterLab_default
             [0; 1]%Q (scrape_defaults "https://example.com")
             (mkWorld [Resp (json_response 202 (PDict [("job_id", PStr "abc")]));
                       Resp finished_job_response] [])
             (mkWorld [Resp finished_job_response]
                      [EvRequest Blocking "POST" "/api/v1/scrape"
                         (Some (PDict (_build_scrape_payload AlterLab_default
                                  (scrape_defaults "https://example.com"))))])
             (json_response 202 (PDict [("job_id", PStr "abc")]))
             [("job_id", PStr "abc")] (PStr "abc")
             eq_refl eq_refl eq_refl eq_refl eq_refl).
  reflexivity.
Defined.

Lemma scrape_parses_direct_response_witness :
  scrape decimal_float decimal_int format_unused AlterLab_default
    [] (scrape_defaults "https://example.com")
    (mkWorld [Resp (json_response 200
                      (PDict [("job_id", PStr "abc");
                              ("content", PStr "hello")]))] [])
  = (_parse_scrape_response
       (PDict [("job_id", PStr "abc"); ("content", PStr "hello")]),
     mkWorld []
       [EvRequest Blocking "POST" "/api/v1/scrape"
          (Some (PDict (_build_scrape_payload AlterLab_default
                   (scrape_defaults "https://example.com"))))]).
Proof.
  apply (scrape_parses_direct_response
           decimal_float decimal_int format_unused Blocking AlterLab_default
           [] (scrape_defaults "https://example.com") _ _
           (json_response 200 (PDict [("job_id", PStr "abc");
                                      ("content", PStr "hello")]))).
  - reflexivity.
  - reflexivity.
  - left. discriminate.
Defined.

Lemma operations_surface_transport_errors_witness :
  get_usage decimal_float decimal_int AlterLab_default
    (mkWorld [Resp (status_response 401 None)] [])
  = (Raise (AuthenticationError 401 (PStr "")
              (Some (status_response 401 None))),
     mkWorld [] [EvRequest Blocking "GET" "/api/v1/usage" None]).
Proof.
  destruct (operations_surface_transport_errors
              decimal_float decimal_int format_unused Blocking AlterLab_default
              (AuthenticationError 401 (PStr "")
                 (Some (status_response 401 None)))
              (mkWorld [Resp (status_response 401 None)] [])
              (mkWorld [] [EvRequest Blocking "GET" "/api/v1/usage" None]))
    as [_ [_ [_ Husage]]].
  apply Husage. reflexivity.
Defined.

Lemma estimate_cost_defaults_witness :
  fst (estimate_cost decimal_float decimal_int AlterLab_default
         "https://example.com" "js" None None
         (mkWorld [Resp (json_response 200
                           (PDict [("estimated_tier", PStr "4")]))] []))
  = Ok (mkCostEstimate (PStr "https://example.com") (PStr "4") (PInt 2)
          (PStr "medium") (PInt 20) (PStr "")).
Proof.
  destruct (estimate_cost_defaults
              decimal_float decimal_int Blocking AlterLab_default
              "https://example.com" "js" None None
              (mkWorld [Resp (json_response 200
                                (PDict [("estimated_tier", PStr "4")]))] [])
              (mkWorld [] [EvRequest Blocking "POST" "/api/v1/scrape/estimate"
                             (Some (PDict (estimate_payload
                                "https://example.com" "js" None None)))])
              (json_response 200 (PDict [("estimated_tier", PStr "4")]))
              [("estimated_tier", PStr "4")] eq_refl eq_refl) as [Hrun _].
  unfold estimate_cost. rewrite Hrun. reflexivity.
Defined.

Lemma get_usage_defaults_and_errors_witness :
  get_usage decimal_float decimal_int AlterLab_default
    (mkWorld [Resp (json_response 200 (PList []))] [])
  = (Raise PyAttributeError,
     mkWorld [] [EvRequest Blocking "GET" "/api/v1/usage" None]).
Proof.
  destruct (get_usage_defaults_and_errors
              decimal_float decimal_int Blocking AlterLab_default
              (mkWorld [Resp (json_response 200 (PList []))] [])
              (mkWorld [] [EvRequest Blocking "GET" "/api/v1/usage" None])
              (json_response 200 (PList [])) eq_refl) as [_ [Hbad _]].
  apply (Hbad (PList [])); [reflexivity|]. intros d. discriminate.
Defined.

Lemma AdvancedOptions_post_init_accepts_iff_witness :
  AdvancedOptions_post_init AdvancedOptions_default = None
  /\ AdvancedOptions_post_init (set_screenshot AdvancedOptions_default)
     = Some "screenshot requires render_js=True".
Proof.
  split.
  - apply (proj1 (AdvancedOptions_post_init_accepts_iff AdvancedOptions_default)).
    repeat split; try discriminate. right. left. reflexivity.
  - apply (proj2 (AdvancedOptions_post_init_accepts_iff
                    (set_screenshot AdvancedOptions_default)));
      reflexivity.
Defined.

Lemma scrape_js_forces_render_js_witness :
  render_js (scrape_js_advanced true (Some AdvancedOptions_default)) = true
  /\ ao_screenshot (scrape_js_advanced true (Some AdvancedOptions_default)) = true
  /\ AdvancedOptions_post_init
       (scrape_js_advanced true (Some AdvancedOptions_default)) = None.
Proof.
  pose proof (scrape_js_forces_render_js true (Some AdvancedOptions_default))
    as H. cbv zeta in H.
  destruct H as [Hr [Hs [Hkeep _]]].
  split; [exact Hr|]. split; [exact (Hs eq_refl)|].
  destruct (Hkeep AdvancedOptions_default eq_refl)
    as [_ [_ [_ [_ [_ [_ [_ [_ [_ [_ [_ Hok]]]]]]]]]]].
  apply Hok. reflexivity.
Defined.

Lemma parse_succeeds_iff_well_shaped_witness :
  (exists r, _parse_scrape_response (PDict [("content", PStr "hello")]) = Ok r)
  /\ ~ (exists r, _parse_scrape_response (PList []) = Ok r).
Proof.
  split.
  - apply (proj2 (parse_succeeds_iff_well_shaped
                    (PDict [("content", PStr "hello")]))).
    exists [("content", PStr "hello")], [], [].
    repeat split; reflexivity.
  - intros H.
    apply (proj1 (parse_succeeds_iff_well_shaped (PList []))) in H.
    destruct H as [d [b [items [Hv _]]]]. discriminate Hv.
Defined.

Lemma parsed_result_accessors_witness :
  match _parse_scrape_response
          (PDict [("content", PStr "hello");
                  ("billing", PDict [("total_credits", PInt 1);
                                     ("tier_used", PStr "1")])])
  with
  | Ok r => SR.text r = PStr "hello" /\ SR.credits_used r = PInt 1
  | Raise _ => False
  end.
Proof.
  destruct (_parse_scrape_response
              (PDict [("content", PStr "hello");
                      ("billing", PDict [("total_credits", PInt 1);
                                         ("tier_used", PStr "1")])]))
    as [r|e] eqn:Hr; [|discriminate Hr].
  destruct (parsed_result_accessors
              [("content", PStr "hello");
               ("billing", PDict [("total_credits", PInt 1);
                                  ("tier_used", PStr "1")])]
              [("total_credits", PInt 1); ("tier_used", PStr "1")]
              r eq_refl Hr) as [Hc [_ [_ [_ [Htext _]]]]].
  split; [|exact Hc].
  destruct (Htext eq_refl) as [Ht _]. exact Ht.
Defined.

Lemma AlterLab_init_key_and_base_url_witness :
  AlterLab_init None None None 120 3 1 = Raise PyValueError
  /\ AlterLab_init (Some "sk_live_1") None (Some "https://api.test//") 120 3 1
     = Ok (mkAlterLabClient "sk_live_1" "https://api.test" (mkAlterLab 120 3 1))
  /\ ends_with_slash "https://api.test" = false.
Proof.
  split; [|split; [reflexivity|]].
  - apply (proj1 (AlterLab_init_key_and_base_url None None None 120 3 1)).
    split; reflexivity.
  - destruct (proj2 (AlterLab_init_key_and_base_url
                       (Some "sk_live_1") None (Some "https://api.test//")
                       120 3 1)
                    (mkAlterLabClient "sk_live_1" "https://api.test"
                                      (mkAlterLab 120 3 1)) eq_refl)
      as [_ [_ [_ [Hslash _]]]].
    exact Hslash.
Defined.
